(** * Franklab spike sorting of one animal day: [sort_animal_day.py]

    A shallow embedding of the script and the properties of its
    specification.  The script drives third-party packages (numpy,
    spikeextractors, spiketoolkit, ml_ms4alg, mountaintools, mlprocessors,
    an external [mp-run-process] binary).  Their functions are parameters
    of the development (class [Libraries]); the file system the script
    touches through [os], [tempfile] and [shutil] is modelled as a finite
    map from paths to nodes; every call that leaves the script is recorded
    in a call trace, with the arguments the script passes. *)

From Stdlib Require Import ZArith QArith Ascii String.
From stdpp Require Import gmap strings list fin_maps pretty sorting.

Set Default Proof Using "Type".
Local Open Scope string_scope.
Local Open Scope Z_scope.

(** ** Python values *)

(** File contents. *)
Abbreviation bytes := (list Byte.byte).

(** The exceptions that can travel through the script.  [Exception] is the
    one the script raises itself; the [OSError] family comes from [os],
    [shutil] and [open]; [LibraryError] stands for whatever a third-party
    function raises. *)
Inductive exn :=
  | Exception (msg : string)
  | FileExistsError (path : string)
  | FileNotFoundError (path : string)
  | NotADirectoryError (path : string)
  | IsADirectoryError (path : string)
  | LibraryError (operation detail : string).

Inductive result (A : Type) :=
  | Ok (a : A)
  | Raise (e : exn).
Arguments Ok {A} a.
Arguments Raise {A} e.

Definition is_ok {A} (r : result A) : bool :=
  match r with Ok _ => true | Raise _ => false end.

(** ** Paths and the file system *)

Inductive node :=
  | Dir
  | File (content : bytes).

(** [dirname p]: the text before the last slash of [p], [None] when [p] has
    no slash (a name relative to the working directory). *)
Fixpoint dirname (p : string) : option string :=
  match p with
  | EmptyString => None
  | String a s =>
      match dirname s with
      | Some d => Some (String a d)
      | None => if Ascii.eqb a "/" then Some EmptyString else None
      end
  end.

(** [under p q]: [q] is [p] itself or lies below the directory [p]. *)
Definition under (p q : string) : bool :=
  String.eqb q p || String.prefix (p ++ "/") q.

(** The parent of a path must be a directory for the path to be created;
    the root and the working directory (empty [dirname], or none) always
    are.  The parent is the text before the last slash, which is the
    parent directory of a canonical path (one without a trailing slash);
    a parent that is a regular file is not told from a missing one. *)
Definition parent_is_dir (fs : gmap string node) (p : string) : bool :=
  match dirname p with
  | None | Some EmptyString => true
  | Some d => match fs !! d with Some Dir => true | _ => false end
  end.

(** ** The processor [CustomSorting] (source lines 98-129) *)

(** The parameters declared with [mlpr.*Parameter]; a [FloatParameter] is
    a rational here: the script only forwards these numbers. *)
Record parameters := {
  samplerate : Q;
  mask_out_artifacts : bool;
  freq_min : Q;
  freq_max : Q;
  whiten : bool;
  detect_sign : Z;
  adjacency_radius : Q;
  clip_size : Z;
  detect_threshold : Q;
  detect_interval : Z;
  noise_overlap_threshold : option Q;
}.

(** An instance of the processor: its [mlpr.Input], its [mlpr.Output] and
    its parameters. *)
Record CustomSorting := {
  recording_file_in : string;
  firings_out : string;
  params :> parameters;
}.

Definition NAME : string := "CustomSorting".
Definition VERSION : string := "0.1.4".

(** The declared defaults of the optional parameters. *)
Definition default_mask_out_artifacts : bool := false.
Definition default_freq_min : Q := 300.
Definition default_freq_max : Q := 6000.
Definition default_whiten : bool := true.
Definition default_clip_size : Z := 50.
Definition default_detect_threshold : Q := 3.
Definition default_detect_interval : Z := 10.
Definition default_noise_overlap_threshold : option Q := Some (15 # 100)%Q.

#[global] Instance Q_eq_dec : EqDecision Q.
Proof. solve_decision. Defined.
#[global] Instance parameters_eq_dec : EqDecision parameters.
Proof. solve_decision. Defined.
#[global] Instance CustomSorting_eq_dec : EqDecision CustomSorting.
Proof. solve_decision. Defined.

(** Modelled from the spec: the cache key of section 4.5, absent from the
    source (it is computed inside [mlprocessors]): operation identity and
    version, the full Pipeline Configuration, and the input Snapshot
    Reference.  The output path and the force-run flag are not part of
    it. *)
Record cache_key := {
  key_operation : string;
  key_version : string;
  key_configuration : parameters;
  key_input : string;
}.

#[global] Instance cache_key_eq_dec : EqDecision cache_key.
Proof. solve_decision. Defined.

Definition key_of (self : CustomSorting) : cache_key :=
  {| key_operation := NAME; key_version := VERSION;
     key_configuration := params self; key_input := recording_file_in self |}.

(** A job: one call of [CustomSorting.execute], with its [_force_run]. *)
Record job := {
  processor : CustomSorting;
  _force_run : bool;
}.

(** Modelled from the spec: the Job Result of section 3. *)
Inductive job_result :=
  | Succeeded (artifact : string)
  | Failed (detail : exn)
  | CacheHit (artifact : string).

(** ** The world *)

(** The state the script runs in: the file system, the number of temporary
    names [tempfile] has handed out, the cache and the job queue.  The last
    two belong to [mlprocessors]: the cache is the Cache Entry store of
    section 3 of the specification, append only, where the newest entry of
    a key supersedes the older ones; the queue holds the jobs submitted and
    not yet run. *)
Record world := {
  fs : gmap string node;
  tmp_requests : nat;
  cache : list (cache_key * string);
  queue : list job;
}.

Definition set_fs (f : gmap string node → gmap string node) (w : world) : world :=
  {| fs := f (fs w); tmp_requests := tmp_requests w; cache := cache w; queue := queue w |}.

(** Modelled from the spec: the cache lookup of section 4.5, absent from
    the source; the newest entry of the key is the one found. *)
Fixpoint cache_lookup (k : cache_key) (c : list (cache_key * string)) : option string :=
  match c with
  | [] => None
  | (k', loc) :: c' => if decide (k = k') then Some loc else cache_lookup k c'
  end.

(** ** The third-party functions *)

(** What the script calls and does not define.  Each function of a package
    either returns or raises; [tempfile_name n] is the name [tempfile]
    settles on at its [n]-th request; [shell_process script fs] is the exit
    status of the process a [ShellScript] starts in the file system [fs],
    and the regular files it leaves behind. *)
Class Libraries := {
  ndarray : Type;
  recording : Type;
  sorting : Type;
  tempfile_name : nat → string;
  shell_process : string → gmap string node → Z * list (string * bytes);
  mdaio_readmda : bytes → result ndarray;
  shape0 : ndarray → nat;
  np_zeros : nat → nat → ndarray;
  NumpyRecordingExtractor : ndarray → Q → ndarray → result recording;
  preprocessing_bandpass_filter : recording → Q → Q → result recording;
  preprocessing_whiten : recording → result recording;
  ml_ms4alg_mountainsort4 :
    recording → Z → Q → Z → Q → Z → Z → result sorting;
  write_sorting_bytes : sorting → result bytes;
}.

(** The calls that leave the script, in the order they are made, with the
    arguments they are given. *)
Inductive event `{Libraries} :=
  | EvMkdir (path : string)
  | EvMkdtemp (path : string)
  | EvRmtree (path : string)
  | EvShellScript (script : string) (retcode : Z)
  | EvReadmda (path : string)
  | EvNumpyRecordingExtractor (X : ndarray) (samplerate : Q) (geom : ndarray)
  | EvBandpassFilter (r : recording) (freq_min freq_max : Q)
  | EvWhiten (r : recording)
  | EvMountainsort4 (r : recording) (detect_sign : Z) (adjacency_radius : Q)
      (clip_size : Z) (detect_threshold : Q) (detect_interval : Z)
      (num_workers : Z)
  | EvWriteSorting (s : sorting) (save_path : string)
  | EvSubmit (j : job)
  | EvPipeline (k : cache_key)
  | EvCacheHit (k : cache_key).

(** ** Computations: state, exceptions and the call trace *)

Record outcome `{Libraries} (A : Type) := {
  value : result A;
  after : world;
  calls : list event;
}.
Arguments value {_ _} _.
Arguments after {_ _} _.
Arguments calls {_ _} _.
Arguments Build_outcome {_ _} _ _ _.

Definition M `{Libraries} (A : Type) : Type := world → outcome A.

Section Monad.
Context `{Libraries}.

Definition ret {A} (a : A) : M A :=
  λ w, {| value := Ok a; after := w; calls := [] |}.

Definition raise {A} (e : exn) : M A :=
  λ w, {| value := Raise e; after := w; calls := [] |}.

Definition bind {A B} (m : M A) (k : A → M B) : M B :=
  λ w,
    let o := m w in
    match value o with
    | Ok a =>
        let o' := k a (after o) in
        {| value := value o'; after := after o'; calls := calls o ++ calls o' |}
    | Raise e => {| value := Raise e; after := after o; calls := calls o |}
    end.

Definition lift {A} (r : result A) : M A :=
  λ w, {| value := r; after := w; calls := [] |}.

Definition call (e : event) : M unit :=
  λ w, {| value := Ok tt; after := w; calls := [e] |}.

Definition get_fs : M (gmap string node) :=
  λ w, {| value := Ok (fs w); after := w; calls := [] |}.

Definition put_fs (f : gmap string node) : M unit :=
  λ w, {| value := Ok tt; after := set_fs (λ _, f) w; calls := [] |}.

(** [with m: body]: [exit] runs whether [body] returns or raises; an
    exception of [body] is re-raised unless [exit] raises one itself
    ([__exit__] returns [None]). *)
Definition with_exit {A} (body : M A) (exit : M unit) : M A :=
  λ w,
    let o := body w in
    let o' := exit (after o) in
    {| value := match value o' with
                | Ok _ => value o
                | Raise e => Raise e
                end;
       after := after o';
       calls := calls o ++ calls o' |}.
End Monad.

#[global] Instance M_ret `{Libraries} : MRet M := @ret _.
#[global] Instance M_bind `{Libraries} : MBind M := λ A B k m, bind m k.

(** ** [os], [tempfile], [shutil] and files *)

Section Os.
Context `{Libraries}.

(** [os.path.exists(path)]; the path is looked up as it is written (the
    file system is keyed by canonical paths). *)
Definition os_path_exists (path : string) : M bool :=
  f ← get_fs; ret (bool_decide (is_Some (f !! path))).

(** The directory creation under [os.mkdir] and [tempfile.mkdtemp]. *)
Definition make_directory (path : string) : M unit :=
  f ← get_fs;
  match f !! path with
  | Some _ => raise (FileExistsError path)
  | None =>
      if parent_is_dir f path then put_fs (<[path := Dir]> f)
      else raise (FileNotFoundError path)
  end.

Definition os_mkdir (path : string) : M unit :=
  call (EvMkdir path) ;; make_directory path.

Definition tempfile_mkdtemp : M string :=
  λ w,
    let path := tempfile_name (tmp_requests w) in
    let w' := {| fs := fs w; tmp_requests := S (tmp_requests w);
                 cache := cache w; queue := queue w |} in
    (call (EvMkdtemp path) ;; make_directory path ;; ret path) w'.

Definition shutil_rmtree (path : string) : M unit :=
  call (EvRmtree path) ;;
  f ← get_fs;
  match f !! path with
  | Some Dir => put_fs (filter (λ kv, under path kv.1 = false) f)
  | Some (File _) => raise (NotADirectoryError path)
  | None => raise (FileNotFoundError path)
  end.

Definition read_file (path : string) : M bytes :=
  f ← get_fs;
  match f !! path with
  | Some (File c) => ret c
  | Some Dir => raise (IsADirectoryError path)
  | None => raise (FileNotFoundError path)
  end.

Definition write_file (path : string) (c : bytes) : M unit :=
  f ← get_fs;
  match f !! path with
  | Some Dir => raise (IsADirectoryError path)
  | _ =>
      if parent_is_dir f path then put_fs (<[path := File c]> f)
      else raise (FileNotFoundError path)
  end.

(** The files an external process leaves: it creates or overwrites
    regular files, and cannot put a file where a directory is. *)
Definition leave_file (f : gmap string node) (pc : string * bytes)
  : gmap string node :=
  match f !! pc.1 with
  | Some Dir => f
  | _ => <[pc.1 := File pc.2]> f
  end.

(** [script = ShellScript(text); script.start(); script.wait()] *)
Definition ShellScript_run (script : string) : M Z :=
  f ← get_fs;
  let '(retcode, files) := shell_process script f in
  call (EvShellScript script retcode) ;;
  put_fs (foldl leave_file f files) ;;
  ret retcode.
End Os.

(** ** The pipeline (source lines 131-191) *)

Definition newline : string := String "010"%char EmptyString.

(** The text given to [ShellScript] by [_mask_out_artifacts], after
    [format]; the second option is spelled as in the source. *)
Definition mask_script (timeseries_in timeseries_out : string) : string :=
  newline ++ "    #!/bin/bash" ++ newline ++
  "    mp-run-process ms3.mask_out_artifacts --timeseries " ++ timeseries_in ++
  " --timeserious_out " ++ timeseries_out ++ newline ++ "    ".

Section Pipeline.
Context `{Libraries}.

Definition _mask_out_artifacts (timeseries_in timeseries_out : string) : M unit :=
  retcode ← ShellScript_run (mask_script timeseries_in timeseries_out);
  if decide (retcode ≠ 0)
  then raise (Exception "problem running ms3.mask_out_artifacts")
  else mret tt.

(** [with TemporaryDirectory() as tmpdir: body]: [__enter__] makes the
    directory, [__exit__] removes it with [shutil.rmtree]. *)
Definition with_TemporaryDirectory {A} (body : string → M A) : M A :=
  tmpdir ← tempfile_mkdtemp;
  with_exit (body tmpdir) (shutil_rmtree tmpdir).

Definition sf_mdaio_readmda (path : string) : M ndarray :=
  call (EvReadmda path) ;;
  c ← read_file path;
  lift (mdaio_readmda c).

Definition se_NumpyRecordingExtractor (X : ndarray) (rate : Q) (geom : ndarray)
  : M recording :=
  call (EvNumpyRecordingExtractor X rate geom) ;;
  lift (NumpyRecordingExtractor X rate geom).

Definition st_preprocessing_bandpass_filter (r : recording) (fmin fmax : Q)
  : M recording :=
  call (EvBandpassFilter r fmin fmax) ;;
  lift (preprocessing_bandpass_filter r fmin fmax).

Definition st_preprocessing_whiten (r : recording) : M recording :=
  call (EvWhiten r) ;;
  lift (preprocessing_whiten r).

Definition ml_ms4alg_mountainsort4_call (r : recording) (sign : Z) (radius : Q)
    (clip : Z) (threshold : Q) (interval : Z) (num_workers : Z) : M sorting :=
  call (EvMountainsort4 r sign radius clip threshold interval num_workers) ;;
  lift (ml_ms4alg_mountainsort4 r sign radius clip threshold interval num_workers).

Definition sf_write_sorting (s : sorting) (save_path : string) : M unit :=
  call (EvWriteSorting s save_path) ;;
  b ← lift (write_sorting_bytes s);
  write_file save_path b.

(** The body of the [with] statement of [CustomSorting.run]. *)
Definition run_body (self : CustomSorting) (tmpdir : string) : M unit :=
  rec_fname ←
    (if mask_out_artifacts self then
       let rec_fname := tmpdir ++ "/raw.mda" in
       _mask_out_artifacts (recording_file_in self) rec_fname ;;
       mret rec_fname
     else mret (recording_file_in self));
  X ← sf_mdaio_readmda rec_fname;
  let geom := np_zeros (shape0 X) 2 in
  recording ← se_NumpyRecordingExtractor X 30000 geom;
  recording ← st_preprocessing_bandpass_filter
                recording (freq_min self) (freq_max self);
  recording ← (if whiten self then st_preprocessing_whiten recording
               else mret recording);
  let num_workers := 2 in
  sorting ← ml_ms4alg_mountainsort4_call recording
              (detect_sign self) (adjacency_radius self) (clip_size self)
              (detect_threshold self) (detect_interval self) num_workers;
  sf_write_sorting sorting (firings_out self).

Definition run (self : CustomSorting) : M unit :=
  with_TemporaryDirectory (run_body self).
End Pipeline.

(** ** The job queue *)

Section JobQueue.
Context `{Libraries}.

(** Modelled from the spec: the caching algorithm of section 4.5, which
    lives in [mlprocessors] ([Processor.execute]), not in the source.
    Unless the run is forced the key is looked up; a hit returns the
    recorded artifact without running the pipeline; otherwise the
    pipeline runs, and only a success records a cache entry.  A failure
    of the pipeline is the job's result, it does not reach the caller. *)
Definition execute_job (j : job) : M job_result :=
  λ w,
    let k := key_of (processor j) in
    match (if _force_run j then None else cache_lookup k (cache w)) with
    | Some artifact =>
        {| value := Ok (CacheHit artifact); after := w; calls := [EvCacheHit k] |}
    | None =>
        let o := run (processor j) w in
        match value o with
        | Ok _ =>
            let artifact := firings_out (processor j) in
            {| value := Ok (Succeeded artifact);
               after := {| fs := fs (after o);
                           tmp_requests := tmp_requests (after o);
                           cache := (k, artifact) :: cache (after o);
                           queue := queue (after o) |};
               calls := EvPipeline k :: calls o |}
        | Raise e =>
            {| value := Ok (Failed e); after := after o;
               calls := EvPipeline k :: calls o |}
        end
    end.

(** Modelled from the spec: [submit(job)] of section 4.5; inside
    [with mlpr.JobQueue(...)] a call of [CustomSorting.execute] hands the
    job to the queue, which keeps submission order. *)
Definition CustomSorting_execute (j : job) : M unit :=
  λ w,
    {| value := Ok tt;
       after := {| fs := fs w; tmp_requests := tmp_requests w;
                   cache := cache w; queue := queue w ++ [j] |};
       calls := [EvSubmit j] |}.

Fixpoint run_jobs (js : list job) : M (list job_result) :=
  match js with
  | [] => mret []
  | j :: js' =>
      r ← execute_job j;
      rs ← run_jobs js';
      mret (r :: rs)
  end.

(** Modelled from the spec: [waitAll()] of section 4.5 for a pool of one
    worker: the queued jobs run one after the other in submission order,
    each to its terminal result. *)
Definition JobQueue_wait : M (list job_result) :=
  λ w,
    run_jobs (queue w)
      {| fs := fs w; tmp_requests := tmp_requests w;
         cache := cache w; queue := [] |}.
End JobQueue.

(** ** The script (source lines 21-68, 93-95, 195-207) *)

Record args := {
  input : string;
  output : string;
  num_jobs : Z;
  force_run : bool;
  test : bool;
}.

(** [parser.add_argument('--num_jobs', ..., default=1)] *)
Definition default_num_jobs : Z := 1.

(** The dictionaries built by [load_ntrode] and [load_epoch]. *)
Record ntrode := {
  ntrode_name : string;
  ntrode_path : string;
  recording_file : string;
}.

Record epoch := {
  epoch_path : string;
  epoch_name : string;
  ntrodes : list ntrode;
}.

Section Script.
Context `{Libraries}.

Definition mkdir2 (path : string) : M unit :=
  e ← os_path_exists path;
  if negb e then os_mkdir path else mret tt.

(** The keyword arguments [spike_sorting] gives to [CustomSorting.execute];
    the optional parameters that are not given take their defaults. *)
Definition spike_sorting_job (recording_file_in firings_out : string) (a : args)
  : job :=
  {| processor :=
       {| recording_file_in := recording_file_in;
          firings_out := firings_out;
          params :=
            {| mask_out_artifacts := true;
               freq_min := 300;
               freq_max := 6000;
               whiten := true;
               samplerate := 30000;
               detect_sign := -1;
               adjacency_radius := 50;
               clip_size := default_clip_size;
               detect_threshold := default_detect_threshold;
               detect_interval := default_detect_interval;
               noise_overlap_threshold := default_noise_overlap_threshold |} |};
     _force_run := force_run a |}.

Definition spike_sorting (recording_file_in firings_out : string) (a : args)
  : M unit :=
  CustomSorting_execute (spike_sorting_job recording_file_in firings_out a).

Fixpoint for_each {A} (l : list A) (body : A → M unit) : M unit :=
  match l with
  | [] => mret tt
  | x :: l' => body x ;; for_each l' body
  end.

(** The body of [for ntrode in epoch['ntrodes']] (lines 58-67). *)
Definition process_ntrode (a : args) (epoch : epoch) (ntrode : ntrode) : M unit :=
  let animal_day_output_path := output a in
  mkdir2 (animal_day_output_path ++ "/" ++ epoch_name epoch ++ "/"
          ++ ntrode_name ntrode) ;;
  let firings_out :=
    animal_day_output_path ++ "/" ++ epoch_name epoch ++ "/"
    ++ ntrode_name ntrode ++ "/firings.mda" in
  let recording_file_in := recording_file ntrode in
  spike_sorting recording_file_in firings_out a.

(** The body of [for epoch in epochs] (lines 55-67). *)
Definition process_epoch (a : args) (epoch : epoch) : M unit :=
  let animal_day_output_path := output a in
  mkdir2 (animal_day_output_path ++ "/" ++ epoch_name epoch) ;;
  for_each (ntrodes epoch) (process_ntrode a epoch).

(** [main] from the point where the epochs are loaded (line 47 on); the
    worker pool is given [int(args.num_jobs)] workers. *)
Definition main (a : args) (epochs : list epoch) : M (list job_result) :=
  let animal_day_output_path := output a in
  mkdir2 animal_day_output_path ;;
  for_each epochs (process_epoch a) ;;
  JobQueue_wait.
End Script.

(** ** Loading the animal day (source lines 36-45 and 70-89) *)

(** [s.endswith(suffix)] *)
Definition endswith (s suffix : string) : bool :=
  (String.length suffix <=? String.length s)%nat &&
  String.eqb
    (substring (String.length s - String.length suffix) (String.length suffix) s)
    suffix.

(** [s[0:-4]]: all but the last four characters of [s], nothing when [s]
    has four characters or fewer. *)
Definition drop_last4 (s : string) : string :=
  substring 0 (String.length s - 4) s.

(** The text after the last slash of a path, the whole path when it has no
    slash. *)
Fixpoint basename (p : string) : string :=
  match p with
  | EmptyString => EmptyString
  | String a s =>
      match dirname s with
      | Some _ => basename s
      | None => if Ascii.eqb a "/" then s else String a s
      end
  end.

(** [mountaintools]: the snapshot reference [mt.createSnapshot] returns for
    a path in a file system, or the exception it raises.  What the package
    stores of a snapshot is kept outside the file system of the model. *)
Class Mountaintools := {
  createSnapshot : string → gmap string node → result string;
}.

Section Load.
Context `{Libraries} `{Mountaintools}.

(** [os.listdir(path)]: the names of the entries directly in the directory
    [path], in no particular order.  The path is looked up as it is
    written: the file system is keyed by canonical paths. *)
Definition os_listdir (path : string) : M (list string) :=
  f ← get_fs;
  match f !! path with
  | Some Dir =>
      mret (omap (λ kv : string * node,
                    if decide (dirname kv.1 = Some path)
                    then Some (basename kv.1) else None)
                 (map_to_list f))
  | Some (File _) => raise (NotADirectoryError path)
  | None => raise (FileNotFoundError path)
  end.

Definition mt_createSnapshot (path : string) : M string :=
  f ← get_fs;
  lift (createSnapshot path f).

Definition load_ntrode (path name : string) : M ntrode :=
  snapshot ← mt_createSnapshot path;
  mret {| ntrode_name := name; ntrode_path := path; recording_file := snapshot |}.

(** [[body x for x in l]] *)
Fixpoint for_list {A B} (l : list A) (body : A → M B) : M (list B) :=
  match l with
  | [] => mret []
  | x :: l' =>
      y ← body x;
      ys ← for_list l' body;
      mret (y :: ys)
  end.

(** [[name for name in sorted(os.listdir(path)) if name.endswith('.mda')]],
    the expression of lines 39 and 78. *)
Definition mda_names (path : string) : M (list string) :=
  names ← os_listdir path;
  mret (filter (λ name, endswith name ".mda" = true) (merge_sort String.le names)).

Definition load_epoch (path name : string) (test : bool) : M epoch :=
  ntrode_names ← mda_names path;
  let ntrode_names := if test then take 2 ntrode_names else ntrode_names in
  ntrodes ← for_list ntrode_names (λ name2,
               load_ntrode (path ++ "/" ++ name2) (drop_last4 name2));
  mret {| epoch_path := path; epoch_name := name; ntrodes := ntrodes |}.

(** Lines 36-45 of [main]. *)
Definition load_epochs (a : args) : M (list epoch) :=
  let animal_day_path := input a in
  epoch_names ← mda_names animal_day_path;
  let epoch_names := if test a then take 2 epoch_names else epoch_names in
  for_list epoch_names (λ name,
    load_epoch (animal_day_path ++ "/" ++ name) (drop_last4 name) (test a)).

(** [main] once the arguments are parsed (lines 36-68). *)
Definition main_script (a : args) : M (list job_result) :=
  epochs ← load_epochs a;
  main a epochs.
End Load.

(** ** Notions used to state the properties *)

Section Notions.
Context `{Libraries}.

(** The stages of [run_body] that follow the load, under a name of their
    own. *)
Definition after_load (self : CustomSorting) (X : ndarray) : M unit :=
  let geom := np_zeros (shape0 X) 2 in
  recording ← se_NumpyRecordingExtractor X 30000 geom;
  recording ← st_preprocessing_bandpass_filter
                recording (freq_min self) (freq_max self);
  recording ← (if whiten self then st_preprocessing_whiten recording
               else mret recording);
  let num_workers := 2 in
  sorting ← ml_ms4alg_mountainsort4_call recording
              (detect_sign self) (adjacency_radius self) (clip_size self)
              (detect_threshold self) (detect_interval self) num_workers;
  sf_write_sorting sorting (firings_out self).

(** A computation keeps directories when every directory of the world
    it starts in is still one in the world it ends in. *)
Definition keeps_dirs {A} (m : M A) : Prop :=
  ∀ w p, fs w !! p = Some Dir → fs (after (m w)) !! p = Some Dir.

(** A computation is silent for a projection [f] of the trace when none
    of its calls is selected by [f]. *)
Definition silent {B} (f : event → option B) {A} (m : M A) : Prop :=
  ∀ w, omap f (calls (m w)) = [].

(** The scripts started, with their exit status, and the paths loaded. *)
Definition shell_call (e : event) : option (string * Z) :=
  match e with EvShellScript script retcode => Some (script, retcode) | _ => None end.

Definition readmda_path (e : event) : option string :=
  match e with EvReadmda path => Some path | _ => None end.
End Notions.

Section StageNotions.
Context `{Libraries}.

(** The calls of the stages that follow the load. *)
Definition stage_call (e : event) : option event :=
  match e with
  | EvNumpyRecordingExtractor _ _ _ | EvBandpassFilter _ _ _ | EvWhiten _
  | EvMountainsort4 _ _ _ _ _ _ _ | EvWriteSorting _ _ => Some e
  | _ => None
  end.

(** The calls [after_load] makes, read off the results of the third-party
    functions: each stage is called with the result of the one before, and
    the first one that raises ends the list. *)
Definition sort_stages (self : CustomSorting) (r : recording) : list event :=
  EvMountainsort4 r (detect_sign self) (adjacency_radius self) (clip_size self)
    (detect_threshold self) (detect_interval self) 2 ::
  match ml_ms4alg_mountainsort4 r (detect_sign self) (adjacency_radius self)
          (clip_size self) (detect_threshold self) (detect_interval self) 2 with
  | Ok s => [EvWriteSorting s (firings_out self)]
  | Raise _ => []
  end.

Definition stages (self : CustomSorting) (X : ndarray) : list event :=
  let geom := np_zeros (shape0 X) 2 in
  EvNumpyRecordingExtractor X 30000 geom ::
  match NumpyRecordingExtractor X 30000 geom with
  | Ok r =>
      EvBandpassFilter r (freq_min self) (freq_max self) ::
      match preprocessing_bandpass_filter r (freq_min self) (freq_max self) with
      | Ok r1 =>
          if whiten self then
            EvWhiten r1 ::
            match preprocessing_whiten r1 with
            | Ok r2 => sort_stages self r2
            | Raise _ => []
            end
          else sort_stages self r1
      | Raise _ => []
      end
  | Raise _ => []
  end.
End StageNotions.

(** The same processor with another [samplerate], and with another
    [noise_overlap_threshold]. *)
Definition with_samplerate (rate : Q) (self : CustomSorting) : CustomSorting :=
  {| recording_file_in := recording_file_in self;
     firings_out := firings_out self;
     params :=
       {| samplerate := rate;
          mask_out_artifacts := mask_out_artifacts self;
          freq_min := freq_min self;
          freq_max := freq_max self;
          whiten := whiten self;
          detect_sign := detect_sign self;
          adjacency_radius := adjacency_radius self;
          clip_size := clip_size self;
          detect_threshold := detect_threshold self;
          detect_interval := detect_interval self;
          noise_overlap_threshold := noise_overlap_threshold self |} |}.

Definition with_noise_overlap_threshold (t : option Q) (self : CustomSorting)
  : CustomSorting :=
  {| recording_file_in := recording_file_in self;
     firings_out := firings_out self;
     params :=
       {| samplerate := samplerate self;
          mask_out_artifacts := mask_out_artifacts self;
          freq_min := freq_min self;
          freq_max := freq_max self;
          whiten := whiten self;
          detect_sign := detect_sign self;
          adjacency_radius := adjacency_radius self;
          clip_size := clip_size self;
          detect_threshold := detect_threshold self;
          detect_interval := detect_interval self;
          noise_overlap_threshold := t |} |}.

Section BatchNotions.
Context `{Libraries}.

(** The jobs handed to the queue. *)
Definition submitted (e : event) : option job :=
  match e with EvSubmit j => Some j | _ => None end.

(** The job of one ntrode of one epoch, and the directories on the way to
    its output file. *)
Definition unit_job (a : args) (e : epoch) (n : ntrode) : job :=
  spike_sorting_job (recording_file n)
    (output a ++ "/" ++ epoch_name e ++ "/" ++ ntrode_name n ++ "/firings.mda") a.


Definition expected_jobs (a : args) (epochs : list epoch) : list job :=
  e ← epochs; n ← ntrodes e; [unit_job a e n].




End BatchNotions.

Section CacheNotions.
Context `{Libraries}.

(** A computation leaves the cache as it found it. *)
Definition keeps_cache {A} (m : M A) : Prop :=
  ∀ w, cache (after (m w)) = cache w.

End CacheNotions.

Section RerunNotions.
Context `{Libraries}.


(** The bytes [run] writes for a loaded array, and for the bytes of a
    recording file: the composition of the third-party functions. *)
Definition after_load_bytes (self : CustomSorting) (X : ndarray) : result bytes :=
  match NumpyRecordingExtractor X 30000 (np_zeros (shape0 X) 2) with
  | Raise e => Raise e
  | Ok r =>
      match preprocessing_bandpass_filter r (freq_min self) (freq_max self) with
      | Raise e => Raise e
      | Ok r1 =>
          match (if whiten self then preprocessing_whiten r1 else Ok r1) with
          | Raise e => Raise e
          | Ok r2 =>
              match ml_ms4alg_mountainsort4 r2 (detect_sign self)
                      (adjacency_radius self) (clip_size self)
                      (detect_threshold self) (detect_interval self) 2 with
              | Raise e => Raise e
              | Ok s => write_sorting_bytes s
              end
          end
      end
  end.

Definition artifact_bytes (self : CustomSorting) (c : bytes) : result bytes :=
  match mdaio_readmda c with
  | Raise e => Raise e
  | Ok X => after_load_bytes self X
  end.

End RerunNotions.





Section LoadNotions.
Context `{Libraries}.

(** A computation that makes no call and leaves the world as it is. *)
Definition frozen {A} (m : M A) : Prop :=
  ∀ w, after (m w) = w ∧ calls (m w) = [].
End LoadNotions.

(** The arguments with another [--test] flag, and an epoch cut down to its
    first two ntrodes. *)
Definition with_test (t : bool) (a : args) : args :=
  {| input := input a; output := output a; num_jobs := num_jobs a;
     force_run := force_run a; test := t |}.

Definition first_two_ntrodes (e : epoch) : epoch :=
  {| epoch_path := epoch_path e; epoch_name := epoch_name e;
     ntrodes := take 2 (ntrodes e) |}.



(** ** The worker pool *)

(** [mlpr.ParallelJobHandler(int(args.num_jobs))] (line 52). *)
Definition pool_size (a : args) : nat := Z.to_nat (num_jobs a).

Module Scheduler.

(** Modelled from the spec: the worker pool of sections 4.5 and 5, which
    lives in [mlprocessors] ([ParallelJobHandler], [JobQueue]), not in the
    source.  Submissions join the end of a queue; a job starts only when
    fewer than [N] jobs are running, and it is the head of the queue; a
    running job finishes at any time.  [started] and [submissions] record
    the order of the starts and of the submissions. *)
Record state := {
  pending : list job;
  running : list job;
  started : list job;
  submissions : list job;
}.

Inductive label :=
  | Submit (j : job)
  | Start
  | Finish (i : nat).

Definition initial : state :=
  {| pending := []; running := []; started := []; submissions := [] |}.

Definition step (N : nat) (s : state) (l : label) : option state :=
  match l with
  | Submit j =>
      Some {| pending := pending s ++ [j]; running := running s;
              started := started s; submissions := submissions s ++ [j] |}
  | Start =>
      match pending s with
      | j :: rest =>
          if decide (length (running s) < N)%nat then
            Some {| pending := rest; running := running s ++ [j];
                    started := started s ++ [j]; submissions := submissions s |}
          else None
      | [] => None
      end
  | Finish i =>
      match running s !! i with
      | Some _ =>
          Some {| pending := pending s; running := delete i (running s);
                  started := started s; submissions := submissions s |}
      | None => None
      end
  end.

Fixpoint steps (N : nat) (s : state) (ls : list label) : option state :=
  match ls with
  | [] => Some s
  | l :: ls' =>
      match step N s l with
      | Some s' => steps N s' ls'
      | None => None
      end
  end.

End Scheduler.

(** ** A small instance of the libraries *)

(** Recordings as the expression that built them, sortings as the
    recording and the arguments given to the sorter. *)
Inductive demo_recording :=
  | DemoNumpy (X : bytes) (rate : Q) (geom : bytes)
  | DemoBandpass (r : demo_recording) (fmin fmax : Q)
  | DemoWhiten (r : demo_recording).

Fixpoint demo_samples (r : demo_recording) : bytes :=
  match r with
  | DemoNumpy X _ _ => X
  | DemoBandpass r _ _ => demo_samples r
  | DemoWhiten r => demo_samples r
  end.

Definition demo_input : string := "/data/nt1.mda".

(** The masking process of the instance: it serves the script written for
    [demo_input], copies the input to the path named after the second
    option, and fails on anything else. *)
Definition demo_script_head : string :=
  Eval vm_compute in
    (newline ++ "    #!/bin/bash" ++ newline ++
     "    mp-run-process ms3.mask_out_artifacts --timeseries " ++ demo_input ++
     " --timeserious_out ").

Definition demo_shell (script : string) (f : gmap string node)
  : Z * list (string * bytes) :=
  let n := String.length demo_script_head in
  if String.prefix demo_script_head script then
    match f !! demo_input with
    | Some (File c) =>
        (0, [(substring n (String.length script - n - 5) script, c)])
    | _ => (1, [])
    end
  else (2, []).

#[global] Instance demo : Libraries := {|
  ndarray := bytes;
  recording := demo_recording;
  sorting := demo_recording * Z;
  tempfile_name n := "/tmp/tmp" ++ pretty n;
  shell_process := demo_shell;
  mdaio_readmda c := match c with [] => Raise (LibraryError "readmda" "empty file") | _ => Ok c end;
  shape0 X := length X;
  np_zeros n m := repeat Byte.x00 (n * m);
  NumpyRecordingExtractor X rate geom := Ok (DemoNumpy X rate geom);
  preprocessing_bandpass_filter r fmin fmax := Ok (DemoBandpass r fmin fmax);
  preprocessing_whiten r := Ok (DemoWhiten r);
  ml_ms4alg_mountainsort4 r sign radius clip threshold interval workers :=
    Ok (r, sign);
  write_sorting_bytes s := Ok (demo_samples s.1);
|}.

Definition demo_world : world :=
  {| fs := {[ "/data" := Dir; "/data/nt1.mda" := File [Byte.x01; Byte.x02];
              "/tmp" := Dir; "/out" := Dir ]};
     tmp_requests := 0; cache := []; queue := [] |}.

Definition demo_processor (mask : bool) : CustomSorting :=
  {| recording_file_in := demo_input; firings_out := "/out/firings.mda";
     params := {| samplerate := 30000; mask_out_artifacts := mask;
                  freq_min := 0; freq_max := 0; whiten := true;
                  detect_sign := -1; adjacency_radius := 50;
                  clip_size := 50; detect_threshold := 3; detect_interval := 10;
                  noise_overlap_threshold := Some (15 # 100)%Q |} |}.






(** The processor of the small instance with [detect_sign] changed from
    -1 to 1. *)
Definition demo_positive_sign : CustomSorting :=
  {| recording_file_in := demo_input; firings_out := "/out/firings.mda";
     params := {| samplerate := 30000; mask_out_artifacts := true;
                  freq_min := 0; freq_max := 0; whiten := true;
                  detect_sign := 1; adjacency_radius := 50;
                  clip_size := 50; detect_threshold := 3; detect_interval := 10;
                  noise_overlap_threshold := Some (15 # 100)%Q |} |}.

Definition demo_job (mask force : bool) : job :=
  {| processor := demo_processor mask; _force_run := force |}.

Definition demo_args : args :=
  {| input := "/data"; output := "/out"; num_jobs := default_num_jobs;
     force_run := false; test := false |}.


Definition demo_labels : list Scheduler.label :=
  [ Scheduler.Submit (demo_job true false); Scheduler.Submit (demo_job false false);
    Scheduler.Start; Scheduler.Finish 0; Scheduler.Start ].

Definition demo_pool_state : Scheduler.state :=
  {| Scheduler.pending := [];
     Scheduler.running := [demo_job false false];
     Scheduler.started := [demo_job true false; demo_job false false];
     Scheduler.submissions := [demo_job true false; demo_job false false] |}.





(** A masking process that takes its output path from the option
    [--timeseries_out], and exits with status 1 when the option is not
    given. *)
Definition demo_strict_shell (script : string) (f : gmap string node)
  : Z * list (string * bytes) :=
  match String.index 0 " --timeseries_out " script with
  | Some n =>
      match f !! demo_input with
      | Some (File c) =>
          (0, [(substring (n + 18) (String.length script - (n + 18) - 5) script, c)])
      | _ => (1, [])
      end
  | None => (1, [])
  end.

Definition demo_strict_mask : Libraries := {|
  ndarray := bytes;
  recording := demo_recording;
  sorting := demo_recording * Z;
  tempfile_name n := "/tmp/tmp" ++ pretty n;
  shell_process := demo_strict_shell;
  mdaio_readmda c := match c with [] => Raise (LibraryError "readmda" "empty file") | _ => Ok c end;
  shape0 X := length X;
  np_zeros n m := repeat Byte.x00 (n * m);
  NumpyRecordingExtractor X rate geom := Ok (DemoNumpy X rate geom);
  preprocessing_bandpass_filter r fmin fmax := Ok (DemoBandpass r fmin fmax);
  preprocessing_whiten r := Ok (DemoWhiten r);
  ml_ms4alg_mountainsort4 r sign radius clip threshold interval workers :=
    Ok (r, sign);
  write_sorting_bytes s := Ok (demo_samples s.1);
|}.


(** ** A small animal day *)

(** Snapshots of the instance: the reference of a file is its path behind
    a scheme; a path that is not there has no snapshot. *)
#[global] Instance demo_mt : Mountaintools := {|
  createSnapshot path f :=
    match f !! path with
    | Some _ => Ok ("sha1dir://" ++ path)
    | None => Raise (FileNotFoundError path)
    end;
|}.

(** A day of two epochs; the first has three ntrodes and a file that is
    not a recording, and the day has a file beside the epochs. *)
Definition demo_day_world : world :=
  {| fs := {[ "/day" := Dir;
              "/day/e1.mda" := Dir;
              "/day/e1.mda/nt2.mda" := File [Byte.x02];
              "/day/e1.mda/nt1.mda" := File [Byte.x01];
              "/day/e1.mda/nt3.mda" := File [Byte.x03];
              "/day/e1.mda/notes.txt" := File [];
              "/day/e2.mda" := Dir;
              "/day/e2.mda/nt1.mda" := File [Byte.x04];
              "/day/readme.txt" := File [];
              "/tmp" := Dir; "/out" := Dir ]};
     tmp_requests := 0; cache := []; queue := [] |}.

Definition demo_day_args : args :=
  {| input := "/day"; output := "/out"; num_jobs := default_num_jobs;
     force_run := false; test := false |}.

Definition demo_day_e1 : epoch :=
  {| epoch_path := "/day/e1.mda"; epoch_name := "e1";
     ntrodes :=
       [ {| ntrode_name := "nt1"; ntrode_path := "/day/e1.mda/nt1.mda";
            recording_file := "sha1dir:///day/e1.mda/nt1.mda" |};
         {| ntrode_name := "nt2"; ntrode_path := "/day/e1.mda/nt2.mda";
            recording_file := "sha1dir:///day/e1.mda/nt2.mda" |};
         {| ntrode_name := "nt3"; ntrode_path := "/day/e1.mda/nt3.mda";
            recording_file := "sha1dir:///day/e1.mda/nt3.mda" |} ] |}.

(** A day whose first [.mda] entry is a regular file. *)
Definition demo_flat_day_world : world :=
  {| fs := {[ "/day" := Dir; "/day/e1.mda" := File [Byte.x01];
              "/tmp" := Dir; "/out" := Dir ]};
     tmp_requests := 0; cache := []; queue := [] |}.


(** A processor of the small instance writing under a directory that is
    not there, and one without whitening. *)
Definition demo_deep_output_processor : CustomSorting :=
  {| recording_file_in := demo_input; firings_out := "/results/firings.mda";
     params := params (demo_processor false) |}.

Definition demo_unwhitened_processor : CustomSorting :=
  {| recording_file_in := demo_input; firings_out := "/out/firings.mda";
     params := {| samplerate := 30000; mask_out_artifacts := false;
                  freq_min := 300; freq_max := 6000; whiten := false;
                  detect_sign := -1; adjacency_radius := 50;
                  clip_size := 50; detect_threshold := 3; detect_interval := 10;
                  noise_overlap_threshold := Some (15 # 100)%Q |} |}.

(** The libraries of the small instance with a masking process that exits
    with status zero and writes nothing. *)
Definition demo_idle_mask : Libraries := {|
  ndarray := bytes;
  recording := demo_recording;
  sorting := demo_recording * Z;
  tempfile_name n := "/tmp/tmp" ++ pretty n;
  shell_process _ _ := (0, []);
  mdaio_readmda c := match c with [] => Raise (LibraryError "readmda" "empty file") | _ => Ok c end;
  shape0 X := length X;
  np_zeros n m := repeat Byte.x00 (n * m);
  NumpyRecordingExtractor X rate geom := Ok (DemoNumpy X rate geom);
  preprocessing_bandpass_filter r fmin fmax := Ok (DemoBandpass r fmin fmax);
  preprocessing_whiten r := Ok (DemoWhiten r);
  ml_ms4alg_mountainsort4 r sign radius clip threshold interval workers :=
    Ok (r, sign);
  write_sorting_bytes s := Ok (demo_samples s.1);
|}.

(** * Properties *)

(** ** Reasoning about computations *)

Section Laws.
Context `{Libraries}.

Lemma bind_run {A B} (m : M A) (k : A → M B) (w : world) :
  (m ≫= k) w =
    match value (m w) with
    | Ok a =>
        {| value := value (k a (after (m w)));
           after := after (k a (after (m w)));
           calls := calls (m w) ++ calls (k a (after (m w))) |}
    | Raise e => {| value := Raise e; after := after (m w); calls := calls (m w) |}
    end.
Proof. reflexivity. Qed.

Lemma keeps_dirs_ret {A} (a : A) : keeps_dirs (mret a).
Proof. by intros w p Hp. Qed.

Lemma keeps_dirs_raise {A} e : keeps_dirs (raise (A := A) e).
Proof. by intros w p Hp. Qed.

Lemma keeps_dirs_lift {A} (r : result A) : keeps_dirs (lift r).
Proof. by intros w p Hp. Qed.

Lemma keeps_dirs_call e : keeps_dirs (call e).
Proof. by intros w p Hp. Qed.

Lemma keeps_dirs_bind {A B} (m : M A) (k : A → M B) :
  keeps_dirs m → (∀ a, keeps_dirs (k a)) → keeps_dirs (m ≫= k).
Proof.
  intros Hm Hk w p Hp. rewrite bind_run.
  specialize (Hm w p Hp). destruct (value (m w)); simpl; [|done].
  by apply Hk.
Qed.

Lemma keeps_dirs_read_file path : keeps_dirs (read_file path).
Proof.
  intros w p Hp. unfold read_file. rewrite bind_run. simpl.
  by destruct (fs w !! path) as [[|c]|].
Qed.

Lemma keeps_dirs_write_file path c : keeps_dirs (write_file path c).
Proof.
  intros w p Hp. unfold write_file. rewrite bind_run. simpl.
  destruct (fs w !! path) as [[|c']|] eqn:E; simpl; try done;
    destruct (parent_is_dir (fs w) path); simpl; try done;
    (rewrite lookup_insert_ne; [done | congruence]).
Qed.

Lemma leave_file_dir f pc p : f !! p = Some Dir → leave_file f pc !! p = Some Dir.
Proof.
  intros Hp. unfold leave_file.
  destruct (f !! pc.1) as [[|c]|] eqn:E; try done;
    (rewrite lookup_insert_ne; [done | congruence]).
Qed.

Lemma leave_files_dir files f p :
  f !! p = Some Dir → foldl leave_file f files !! p = Some Dir.
Proof.
  revert f. induction files as [|pc files IH]; intros f Hp; simpl; [done|].
  by apply IH, leave_file_dir.
Qed.

Lemma keeps_dirs_ShellScript_run script : keeps_dirs (ShellScript_run script).
Proof.
  intros w p Hp. unfold ShellScript_run. rewrite bind_run. simpl.
  destruct (shell_process script (fs w)) as [retcode files]. simpl.
  by apply leave_files_dir.
Qed.
End Laws.

(** ** The temporary workspace *)

Lemma append_cons (a : ascii) (s t : string) : String a s ++ t = String a (s ++ t).
Proof. reflexivity. Qed.

Lemma prefix_append (p s : string) : String.prefix p (p ++ s) = true.
Proof.
  induction p as [|a p IH]; [by destruct s|].
  rewrite append_cons. simpl. destruct (ascii_dec a a); [done | congruence].
Qed.

Lemma append_assoc (a b c : string) : (a ++ b) ++ c = a ++ (b ++ c).
Proof. induction a as [|x a IH]; [done | by rewrite !append_cons, IH]. Qed.

Lemma under_child (p name : string) : under p (p ++ "/" ++ name) = true.
Proof.
  unfold under. rewrite <- append_assoc, prefix_append. apply orb_true_r.
Qed.

Section Workspace.
Context `{Libraries}.

Lemma keeps_dirs_mask_out_artifacts i o : keeps_dirs (_mask_out_artifacts i o).
Proof.
  apply keeps_dirs_bind; [apply keeps_dirs_ShellScript_run|].
  intros retcode. destruct (decide (retcode ≠ 0)).
  - apply keeps_dirs_raise.
  - apply keeps_dirs_ret.
Qed.

Lemma keeps_dirs_run_body self tmpdir : keeps_dirs (run_body self tmpdir).
Proof.
  unfold run_body, sf_mdaio_readmda, se_NumpyRecordingExtractor,
    st_preprocessing_bandpass_filter, st_preprocessing_whiten,
    ml_ms4alg_mountainsort4_call, sf_write_sorting.
  repeat first
    [ apply keeps_dirs_ret | apply keeps_dirs_raise | apply keeps_dirs_lift
    | apply keeps_dirs_call | apply keeps_dirs_read_file
    | apply keeps_dirs_write_file | apply keeps_dirs_mask_out_artifacts
    | apply keeps_dirs_bind
    | match goal with
      | |- ∀ _, keeps_dirs _ => intro
      | |- keeps_dirs (if ?b then _ else _) => destruct b
      end ].
Qed.

Lemma mkdtemp_returns w tmpdir :
  value (tempfile_mkdtemp w) = Ok tmpdir →
  tmpdir = tempfile_name (tmp_requests w) ∧
  fs (after (tempfile_mkdtemp w)) !! tmpdir = Some Dir.
Proof.
  unfold tempfile_mkdtemp, make_directory. rewrite !bind_run. simpl.
  destruct (fs w !! tempfile_name (tmp_requests w)) eqn:E; simpl; [done|].
  destruct (parent_is_dir (fs w) (tempfile_name (tmp_requests w))); simpl; [|done].
  intros [= <-]. split; [done|]. apply lookup_insert_eq.
Qed.

Lemma rmtree_removes w path :
  fs w !! path = Some Dir →
  value (shutil_rmtree path w) = Ok tt ∧
  ∀ q, under path q = true → fs (after (shutil_rmtree path w)) !! q = None.
Proof.
  intros Hd. unfold shutil_rmtree. rewrite !bind_run. simpl. rewrite Hd. simpl.
  split; [done|]. intros q Hq.
  apply map_lookup_filter_None. right. intros x _. simpl. by rewrite Hq.
Qed.

(** C4.  Whether [run] returns or raises, once [TemporaryDirectory] has
    handed out its directory, nothing at or below that directory is left
    in the file system when [run] is over. *)
Theorem workspace_is_removed (self : CustomSorting) (w : world) (tmpdir : string) :
  value (tempfile_mkdtemp w) = Ok tmpdir →
  ∀ q, under tmpdir q = true → fs (after (run self w)) !! q = None.
Proof.
  intros Ht q Hq. destruct (mkdtemp_returns _ _ Ht) as [_ Hd].
  unfold run, with_TemporaryDirectory. rewrite bind_run, Ht. simpl.
  unfold with_exit. simpl.
  apply rmtree_removes; [|done].
  by apply keeps_dirs_run_body.
Qed.
End Workspace.

(** ** Projections of the call trace *)

Section Traces.
Context `{Libraries}.

Lemma calls_bind {A B} (m : M A) (k : A → M B) (w : world) :
  calls ((m ≫= k) w) =
    (calls (m w) ++
     match value (m w) with
     | Ok a => calls (k a (after (m w)))
     | Raise _ => []
     end)%list.
Proof. rewrite bind_run. destruct (value (m w)); simpl; [done|]. by rewrite app_nil_r. Qed.

Context {B : Type} (f : event → option B).

Lemma silent_ret {A} (a : A) : silent f (mret a).
Proof. by intros w. Qed.

Lemma silent_raise {A} e : silent f (raise (A := A) e).
Proof. by intros w. Qed.

Lemma silent_lift {A} (r : result A) : silent f (lift r).
Proof. by intros w. Qed.

Lemma silent_get_fs : silent f get_fs.
Proof. by intros w. Qed.

Lemma silent_put_fs g : silent f (put_fs g).
Proof. by intros w. Qed.

Lemma silent_call e : f e = None → silent f (call e).
Proof. intros He w. simpl. by rewrite He. Qed.

Lemma silent_bind {A C} (m : M A) (k : A → M C) :
  silent f m → (∀ a, silent f (k a)) → silent f (m ≫= k).
Proof.
  intros Hm Hk w. rewrite calls_bind, omap_app, Hm. simpl.
  destruct (value (m w)); [apply Hk | done].
Qed.

Lemma silent_with_exit {A} (body : M A) (exit : M unit) :
  silent f body → silent f exit → silent f (with_exit body exit).
Proof.
  intros Hb He w. unfold with_exit. simpl. by rewrite omap_app, Hb, He.
Qed.
End Traces.

Ltac silent_step :=
  first
    [ apply silent_ret | apply silent_raise | apply silent_lift
    | apply silent_get_fs | apply silent_put_fs
    | apply silent_call; reflexivity
    | apply silent_bind
    | apply silent_with_exit
    | match goal with
      | |- ∀ _, silent _ _ => intro
      | |- silent _ (if ?b then _ else _) => destruct b
      | |- silent _ (match ?x with _ => _ end) => destruct x
      | |- silent _ (let '(_, _) := ?x in _) => destruct x
      end ].

Section Masking.
Context `{Libraries}.

Lemma silent_make_directory {B} (f : event → option B) path :
  silent f (make_directory path).
Proof. unfold make_directory. repeat silent_step. Qed.

Lemma silent_mkdtemp {B} (f : event → option B) :
  (∀ path, f (EvMkdtemp path) = None) → silent f tempfile_mkdtemp.
Proof.
  intros Hf w. unfold tempfile_mkdtemp.
  rewrite calls_bind, omap_app. simpl. rewrite Hf. simpl.
  rewrite calls_bind, omap_app, silent_make_directory. simpl.
  by destruct (value _).
Qed.

Lemma silent_rmtree {B} (f : event → option B) path :
  f (EvRmtree path) = None → silent f (shutil_rmtree path).
Proof.
  intros Hf. unfold shutil_rmtree.
  apply silent_bind; [by apply silent_call|]. intros _. repeat silent_step.
Qed.

Lemma silent_read_file {B} (f : event → option B) path : silent f (read_file path).
Proof. unfold read_file. repeat silent_step. Qed.

Lemma silent_write_file {B} (f : event → option B) path c :
  silent f (write_file path c).
Proof. unfold write_file. repeat silent_step. Qed.

Lemma silent_after_load {B} (f : event → option B) self X :
  (∀ e, f e ≠ None → (∃ s r, e = EvShellScript s r) ∨ (∃ p, e = EvReadmda p)) →
  silent f (after_load self X).
Proof.
  intros Hf.
  assert (Hcall : ∀ e, (∀ s r, e ≠ EvShellScript s r) → (∀ p, e ≠ EvReadmda p) →
                       silent f (call e)).
  { intros e H1 H2. apply silent_call. destruct (f e) eqn:E; [|done].
    destruct (Hf e) as [(s & r & ->)|(p & ->)]; [congruence| by destruct (H1 s r) | by destruct (H2 p)]. }
  unfold after_load, se_NumpyRecordingExtractor, st_preprocessing_bandpass_filter,
    st_preprocessing_whiten, ml_ms4alg_mountainsort4_call, sf_write_sorting.
  repeat first [ apply Hcall; done | apply silent_write_file | silent_step ].
Qed.
End Masking.

(** ** Masking and load *)

Section MaskAndLoad.
Context `{Libraries}.

Lemma run_body_stages self tmpdir :
  run_body self tmpdir =
    (rec_fname ←
       (if mask_out_artifacts self then
          _mask_out_artifacts (recording_file_in self) (tmpdir ++ "/raw.mda") ;;
          mret (tmpdir ++ "/raw.mda")
        else mret (recording_file_in self));
     X ← sf_mdaio_readmda rec_fname;
     after_load self X).
Proof. reflexivity. Qed.

(** [_mask_out_artifacts] starts the script once, and raises exactly when
    the exit status is not zero. *)
Lemma mask_out_artifacts_run i o w :
  let r := shell_process (mask_script i o) (fs w) in
  calls (_mask_out_artifacts i o w) = [EvShellScript (mask_script i o) r.1] ∧
  value (_mask_out_artifacts i o w) =
    (if decide (r.1 ≠ 0)
     then Raise (Exception "problem running ms3.mask_out_artifacts")
     else Ok tt) ∧
  after (_mask_out_artifacts i o w) = set_fs (λ f, foldl leave_file f r.2) w.
Proof.
  unfold _mask_out_artifacts, ShellScript_run. rewrite !bind_run. simpl.
  destruct (shell_process (mask_script i o) (fs w)) as [retcode files]. simpl.
  destruct (decide (retcode ≠ 0)); simpl; by destruct w.
Qed.

Lemma calls_call_bind {B} e (k : unit → M B) w :
  calls ((call e ≫= k) w) = e :: calls (k tt w).
Proof. reflexivity. Qed.

Lemma omap_cons_match {A B} (f : A → option B) x l :
  omap f (x :: l) = match f x with Some y => y :: omap f l | None => omap f l end.
Proof. reflexivity. Qed.

Lemma calls_run self w tmpdir :
  value (tempfile_mkdtemp w) = Ok tmpdir →
  calls (run self w) =
    (calls (tempfile_mkdtemp w) ++
     calls (run_body self tmpdir (after (tempfile_mkdtemp w))) ++
     calls (shutil_rmtree tmpdir
              (after (run_body self tmpdir (after (tempfile_mkdtemp w))))))%list.
Proof.
  intros Ht. unfold run, with_TemporaryDirectory. by rewrite calls_bind, Ht.
Qed.

Lemma bind_ok {A B} (m : M A) (k : A → M B) w a :
  value (m w) = Ok a →
  (m ≫= k) w =
    {| value := value (k a (after (m w)));
       after := after (k a (after (m w)));
       calls := (calls (m w) ++ calls (k a (after (m w))))%list |}.
Proof. intros Hv. by rewrite bind_run, Hv. Qed.

Lemma bind_raise {A B} (m : M A) (k : A → M B) w e :
  value (m w) = Raise e →
  (m ≫= k) w = {| value := Raise e; after := after (m w); calls := calls (m w) |}.
Proof. intros Hv. by rewrite bind_run, Hv. Qed.

(** The scripts and the loads of [run_body], for any projection [f] that
    selects only such calls. *)
Lemma omap_run_body {B} (f : event → option B) self tmpdir w :
  (∀ e, f e ≠ None → (∃ s r, e = EvShellScript s r) ∨ (∃ p, e = EvReadmda p)) →
  let i := recording_file_in self in
  let o := tmpdir ++ "/raw.mda" in
  let retcode := (shell_process (mask_script i o) (fs w)).1 in
  omap f (calls (run_body self tmpdir w)) =
    if mask_out_artifacts self then
      (omap f [EvShellScript (mask_script i o) retcode] ++
       (if decide (retcode = 0) then omap f [EvReadmda o] else []))%list
    else omap f [EvReadmda i].
Proof.
  intros Hf i o retcode. subst i o. rewrite run_body_stages.
  assert (Hload : ∀ path w',
            omap f (calls ((X ← sf_mdaio_readmda path; after_load self X) w'))
            = omap f [EvReadmda path]).
  { intros path w'. rewrite calls_bind, omap_app.
    assert (Hrest : silent f (c ← read_file path; lift (mdaio_readmda c))).
    { apply silent_bind; [apply silent_read_file|]. intros c. apply silent_lift. }
    unfold sf_mdaio_readmda at 1. rewrite calls_call_bind, !omap_cons_match, Hrest.
    destruct (value (sf_mdaio_readmda path w'));
      rewrite ?silent_after_load by done; simpl; by rewrite ?app_nil_r. }
  destruct (mask_out_artifacts self).
  - destruct (mask_out_artifacts_run (recording_file_in self) (tmpdir ++ "/raw.mda") w)
      as (Hc & Hv & _).
    fold retcode in Hc, Hv.
    destruct (decide (retcode ≠ 0)) as [Hr|Hr].
    + rewrite decide_False by done.
      erewrite bind_raise; [|by erewrite bind_raise].
      simpl. erewrite bind_raise by done. simpl. by rewrite Hc, app_nil_r.
    + rewrite decide_True by (by destruct (decide (retcode = 0))).
      erewrite bind_ok; [|by erewrite bind_ok].
      simpl. erewrite bind_ok by done. simpl.
      by rewrite !omap_app, Hc, Hload, app_nil_r.
  - erewrite bind_ok by done. simpl. apply Hload.
Qed.

End MaskAndLoad.

(** ** The stages after the load *)

Section Stages.
Context `{Libraries}.

Lemma calls_lift_bind {A B} (r : result A) (k : A → M B) w :
  calls ((lift r ≫= k) w) = match r with Ok a => calls (k a w) | Raise _ => [] end.
Proof. rewrite calls_bind. simpl. by destruct r. Qed.

Lemma calls_write_file path c w : calls (write_file path c w) = [].
Proof.
  unfold write_file. rewrite calls_bind. simpl.
  destruct (fs w !! path) as [[|c']|]; simpl; try done;
    by destruct (parent_is_dir (fs w) path).
Qed.

Lemma calls_read_file path w : calls (read_file path w) = [].
Proof.
  unfold read_file. rewrite calls_bind. simpl.
  by destruct (fs w !! path) as [[|c']|].
Qed.

Lemma calls_write_sorting s path w :
  calls (sf_write_sorting s path w) = [EvWriteSorting s path].
Proof.
  unfold sf_write_sorting. rewrite calls_call_bind, calls_lift_bind.
  destruct (write_sorting_bytes s); [by rewrite calls_write_file | done].
Qed.

Lemma call_lift_run {A} e (r : result A) w :
  (call e ≫= λ _, lift r) w = {| value := r; after := w; calls := [e] |}.
Proof. reflexivity. Qed.

Lemma calls_sort self r w :
  calls ((sorting ← ml_ms4alg_mountainsort4_call r
                      (detect_sign self) (adjacency_radius self) (clip_size self)
                      (detect_threshold self) (detect_interval self) 2;
          sf_write_sorting sorting (firings_out self)) w) = sort_stages self r.
Proof.
  unfold sort_stages, ml_ms4alg_mountainsort4_call.
  rewrite calls_bind, call_lift_run. cbn [value after calls app].
  destruct (ml_ms4alg_mountainsort4 _ _ _ _ _ _ _); [|done].
  by rewrite calls_write_sorting.
Qed.

(** The calls of [after_load] do not depend on the world it starts in. *)
Lemma calls_after_load self X w : calls (after_load self X w) = stages self X.
Proof.
  unfold after_load, stages, se_NumpyRecordingExtractor,
    st_preprocessing_bandpass_filter, st_preprocessing_whiten.
  rewrite calls_bind, call_lift_run. cbn [value after calls app].
  destruct (NumpyRecordingExtractor _ _ _) as [r|]; [|done]. f_equal.
  rewrite calls_bind, call_lift_run. cbn [value after calls app].
  destruct (preprocessing_bandpass_filter _ _ _) as [r1|]; [|done]. f_equal.
  destruct (whiten self).
  - rewrite calls_bind, call_lift_run. cbn [value after calls app].
    destruct (preprocessing_whiten r1) as [r2|]; [|done]. f_equal.
    apply calls_sort.
  - apply calls_sort.
Qed.
End Stages.

(** ** The calls of [run] *)

Section RunCalls.
Context `{Libraries}.

Lemma calls_mkdtemp w :
  calls (tempfile_mkdtemp w) = [EvMkdtemp (tempfile_name (tmp_requests w))].
Proof.
  unfold tempfile_mkdtemp, make_directory. rewrite calls_call_bind. f_equal.
  rewrite !calls_bind. simpl.
  destruct (fs w !! tempfile_name (tmp_requests w)); simpl; [done|].
  by destruct (parent_is_dir (fs w) (tempfile_name (tmp_requests w))).
Qed.

Lemma calls_rmtree path w : calls (shutil_rmtree path w) = [EvRmtree path].
Proof.
  unfold shutil_rmtree. rewrite calls_call_bind. f_equal.
  rewrite calls_bind. simpl. by destruct (fs w !! path) as [[|c]|].
Qed.

Lemma calls_readmda path w : calls (sf_mdaio_readmda path w) = [EvReadmda path].
Proof.
  unfold sf_mdaio_readmda. rewrite calls_call_bind. f_equal.
  rewrite calls_bind, calls_read_file.
  by destruct (value (read_file path w)).
Qed.

Lemma calls_load self path w :
  calls ((X ← sf_mdaio_readmda path; after_load self X) w) =
    EvReadmda path ::
    match value (sf_mdaio_readmda path w) with
    | Ok X => stages self X
    | Raise _ => []
    end.
Proof.
  rewrite calls_bind, calls_readmda. cbn [app].
  destruct (value (sf_mdaio_readmda path w)); [|done].
  by rewrite calls_after_load.
Qed.

(** The stage calls of a run are those of [stages] for the array that was
    loaded, or there are none (the run ended before or in the load). *)
Lemma run_stage_calls self w :
  omap stage_call (calls (run self w)) = [] ∨
  ∃ X, omap stage_call (calls (run self w)) = stages self X.
Proof.
  assert (Hst : ∀ X, omap stage_call (stages self X) = stages self X).
  { intros X. unfold stages, sort_stages.
    repeat (simpl; match goal with
                   | |- context [match ?r with Ok _ => _ | Raise _ => _ end] => destruct r
                   | |- context [if ?b then _ else _] => destruct b
                   end); done. }
  assert (Hload : ∀ path w',
            omap stage_call (calls ((X ← sf_mdaio_readmda path; after_load self X) w')) = [] ∨
            ∃ X, omap stage_call (calls ((X ← sf_mdaio_readmda path; after_load self X) w'))
                 = stages self X).
  { intros path w'. rewrite calls_load, omap_cons_match. cbn [stage_call].
    destruct (value (sf_mdaio_readmda path w')) as [X|]; [|by left].
    right. exists X. apply Hst. }
  destruct (value (tempfile_mkdtemp w)) as [tmpdir|e] eqn:Ht.
  - rewrite (calls_run _ _ _ Ht), calls_mkdtemp, calls_rmtree, run_body_stages.
    rewrite !omap_app, !omap_cons_match. cbn [stage_call omap list_omap app].
    rewrite app_nil_r.
    destruct (mask_out_artifacts self).
    + destruct (mask_out_artifacts_run (recording_file_in self) (tmpdir ++ "/raw.mda")
                  (after (tempfile_mkdtemp w))) as (Hc & Hv & _).
      destruct (decide (_ ≠ 0)).
      * left. erewrite bind_raise; [|by erewrite bind_raise].
        cbn [value after calls]. erewrite bind_raise by done.
        cbn [value after calls]. by rewrite Hc.
      * erewrite bind_ok; [|by erewrite bind_ok].
        cbn [value after calls]. erewrite bind_ok by done.
        cbn [value after calls]. rewrite !omap_app, Hc. apply Hload.
    + erewrite bind_ok by done. apply Hload.
  - left. unfold run, with_TemporaryDirectory.
    erewrite bind_raise by done. cbn [value after calls]. by rewrite calls_mkdtemp.
Qed.

Lemma stage_call_Some e e' : stage_call e = Some e' → e' = e.
Proof. destruct e; simpl; congruence. Qed.

End RunCalls.

(** ** Band-pass filter, sorter and sample rate *)

Section StageProperties.
Context `{Libraries}.

Lemma stages_numpy self X0 X rate geom :
  EvNumpyRecordingExtractor X rate geom ∈ stages self X0 →
  X = X0 ∧ rate = 30000%Q ∧ geom = np_zeros (shape0 X0) 2.
Proof.
  unfold stages, sort_stages. intros Hin.
  repeat match type of Hin with
         | context [match ?r with Ok _ => _ | Raise _ => _ end] => destruct r
         | context [if ?b then _ else _] => destruct b
         end;
    repeat (apply elem_of_cons in Hin as [Hin|Hin]; [by simplify_eq|]);
    by apply elem_of_nil in Hin.
Qed.

Lemma stages_bandpass (self : CustomSorting) X r :
  NumpyRecordingExtractor X 30000 (np_zeros (shape0 X) 2) = Ok r →
  EvBandpassFilter r (freq_min self) (freq_max self) ∈ stages self X.
Proof. intros Hr. unfold stages. rewrite Hr. apply elem_of_cons. right. by left. Qed.

Lemma stages_whiten (self : CustomSorting) X r r' :
  NumpyRecordingExtractor X 30000 (np_zeros (shape0 X) 2) = Ok r →
  EvWhiten r' ∈ stages self X →
  preprocessing_bandpass_filter r (freq_min self) (freq_max self) = Ok r'.
Proof.
  intros Hr. unfold stages, sort_stages. rewrite Hr. intros Hin.
  repeat match type of Hin with
         | context [match ?r with Ok _ => _ | Raise _ => _ end] => destruct r eqn:?
         | context [if ?b then _ else _] => destruct b
         end;
    repeat (apply elem_of_cons in Hin as [Hin|Hin]; [by simplify_eq|]);
    by apply elem_of_nil in Hin.
Qed.

Lemma in_run_in_stages self w e :
  e ∈ calls (run self w) → stage_call e = Some e →
  ∃ X, omap stage_call (calls (run self w)) = stages self X ∧ e ∈ stages self X.
Proof.
  intros He Hs.
  assert (Hin : e ∈ omap stage_call (calls (run self w))).
  { apply list_elem_of_omap. eauto. }
  destruct (run_stage_calls self w) as [E|[X E]]; rewrite E in Hin.
  - by apply elem_of_nil in Hin.
  - eauto.
Qed.

Lemma in_stages_in_run self w X e :
  omap stage_call (calls (run self w)) = stages self X →
  e ∈ stages self X → e ∈ calls (run self w).
Proof.
  intros E He. rewrite <- E in He.
  apply list_elem_of_omap in He as (x & Hx & Hsx).
  by rewrite (stage_call_Some _ _ Hsx).
Qed.

Lemma stages_injective self w X X' :
  omap stage_call (calls (run self w)) = stages self X →
  omap stage_call (calls (run self w)) = stages self X' → X = X'.
Proof.
  intros E E'. rewrite E in E'. unfold stages in E'. by simplify_eq.
Qed.

(** C3, as the source has it.  [run] has no test on the two bounds: the
    recording built from the loaded array is always given to the band-pass
    filter, with [freq_min] and [freq_max] as they are configured (zero
    included, without an error of the script's own), and a recording given
    to the whitening is the one the filter returned. *)
Theorem bandpass_filter_is_always_called
    (self : CustomSorting) (w : world) (X geom : ndarray) (rate : Q) (r : recording) :
  EvNumpyRecordingExtractor X rate geom ∈ calls (run self w) →
  NumpyRecordingExtractor X rate geom = Ok r →
  EvBandpassFilter r (freq_min self) (freq_max self) ∈ calls (run self w) ∧
  ∀ r', EvWhiten r' ∈ calls (run self w) →
        preprocessing_bandpass_filter r (freq_min self) (freq_max self) = Ok r'.
Proof.
  intros Hin Hr.
  destruct (in_run_in_stages _ _ _ Hin eq_refl) as (X0 & E & Hin0).
  apply stages_numpy in Hin0 as (-> & -> & ->).
  split.
  - eapply in_stages_in_run; [done|]. by apply stages_bandpass.
  - intros r' Hw.
    destruct (in_run_in_stages _ _ _ Hw eq_refl) as (X1 & E1 & Hin1).
    rewrite <- (stages_injective _ _ _ _ E E1) in Hin1.
    by eapply stages_whiten.
Qed.
End StageProperties.

Section SorterAndRate.
Context `{Libraries}.

Lemma stages_sorter (self : CustomSorting) X r sign radius clip threshold interval workers :
  EvMountainsort4 r sign radius clip threshold interval workers ∈ stages self X →
  sign = detect_sign self ∧ radius = adjacency_radius self ∧
  clip = clip_size self ∧ threshold = detect_threshold self ∧
  interval = detect_interval self ∧ workers = 2.
Proof.
  unfold stages, sort_stages. intros Hin.
  repeat match type of Hin with
         | context [match ?r with Ok _ => _ | Raise _ => _ end] => destruct r
         | context [if ?b then _ else _] => destruct b
         end;
    repeat (apply elem_of_cons in Hin as [Hin|Hin]; [by inversion Hin; subst; repeat split|]);
    by apply elem_of_nil in Hin.
Qed.

Lemma stages_write (self : CustomSorting) X s path :
  EvWriteSorting s path ∈ stages self X →
  path = firings_out self ∧
  ∃ r,
    EvMountainsort4 r (detect_sign self) (adjacency_radius self) (clip_size self)
      (detect_threshold self) (detect_interval self) 2 ∈ stages self X ∧
    ml_ms4alg_mountainsort4 r (detect_sign self) (adjacency_radius self)
      (clip_size self) (detect_threshold self) (detect_interval self) 2 = Ok s.
Proof.
  unfold stages, sort_stages. intros Hin.
  repeat match type of Hin with
         | context [match ?r with Ok _ => _ | Raise _ => _ end] => destruct r eqn:?
         | context [if ?b then _ else _] => destruct b
         end;
    repeat (apply elem_of_cons in Hin as [Hin|Hin]; [simplify_eq|]);
    try (by apply elem_of_nil in Hin);
    (split; [done|]); eexists; (split; [|eassumption]);
    rewrite !elem_of_cons; tauto.
Qed.

(** C6, as the source has it.  The sorter is called with the five
    configured values (and two workers); the sorting that is written is the
    one the sorter returned, nothing is applied to it in between; and
    [noise_overlap_threshold] has no influence on the run at all. *)
Theorem sorter_call_and_no_curation (self : CustomSorting) (w : world) :
  (∀ r sign radius clip threshold interval workers,
     EvMountainsort4 r sign radius clip threshold interval workers
       ∈ calls (run self w) →
     sign = detect_sign self ∧ radius = adjacency_radius self ∧
     clip = clip_size self ∧ threshold = detect_threshold self ∧
     interval = detect_interval self ∧ workers = 2) ∧
  (∀ s path,
     EvWriteSorting s path ∈ calls (run self w) →
     path = firings_out self ∧
     ∃ r,
       EvMountainsort4 r (detect_sign self) (adjacency_radius self)
         (clip_size self) (detect_threshold self) (detect_interval self) 2
         ∈ calls (run self w) ∧
       ml_ms4alg_mountainsort4 r (detect_sign self) (adjacency_radius self)
         (clip_size self) (detect_threshold self) (detect_interval self) 2 = Ok s) ∧
  (∀ t, run (with_noise_overlap_threshold t self) w = run self w).
Proof.
  split; [|split].
  - intros r sign radius clip threshold interval workers Hin.
    destruct (in_run_in_stages _ _ _ Hin eq_refl) as (X & _ & Hin').
    by eapply stages_sorter.
  - intros s path Hin.
    destruct (in_run_in_stages _ _ _ Hin eq_refl) as (X & E & Hin').
    apply stages_write in Hin' as (-> & r & Hr & Hs).
    split; [done|]. exists r. split; [|done]. by eapply in_stages_in_run.
  - intros t. by destruct self as [i o []].
Qed.

(** C10.  [run] does not read [samplerate]: a run with another value of it
    is the same run (same result, same world, same calls); the recording
    is always built with the rate 30000; and the cache keys of the two
    configurations differ. *)
Theorem samplerate_is_not_used (self : CustomSorting) (rate : Q) (w : world) :
  run (with_samplerate rate self) w = run self w ∧
  (∀ X rate' geom,
     EvNumpyRecordingExtractor X rate' geom ∈ calls (run self w) → rate' = 30000%Q) ∧
  (rate ≠ samplerate self → key_of (with_samplerate rate self) ≠ key_of self).
Proof.
  split; [|split].
  - by destruct self as [i o []].
  - intros X rate' geom Hin.
    destruct (in_run_in_stages _ _ _ Hin eq_refl) as (X0 & _ & Hin').
    by apply stages_numpy in Hin' as (_ & -> & _).
  - intros Hne Hk. apply Hne.
    by apply (f_equal (λ k, samplerate (key_configuration k))) in Hk.
Qed.
End SorterAndRate.

(** ** Failure of the masking stage *)

Section MaskFailure.
Context `{Libraries}.




End MaskFailure.

(** ** Output paths and their directories *)

Section OutputPaths.
Context `{Libraries}.
Implicit Types (a : args) (epochs : list epoch) (R : string → Prop).



(** The description of [mkdir2]: it calls [os.mkdir] exactly when the path
    does not exist yet. *)
Lemma mkdir2_run path w :
  (is_Some (fs w !! path) ∧ mkdir2 path w = {| value := Ok tt; after := w; calls := [] |}) ∨
  (fs w !! path = None ∧ calls (mkdir2 path w) = [EvMkdir path] ∧
   ((value (mkdir2 path w) = Ok tt ∧
     fs (after (mkdir2 path w)) = <[path := Dir]> (fs w)) ∨
    (is_ok (value (mkdir2 path w)) = false ∧ after (mkdir2 path w) = w))).
Proof.
  unfold mkdir2, os_path_exists, os_mkdir, make_directory.
  rewrite !bind_run. simpl.
  destruct (fs w !! path) as [x|] eqn:E.
  - left. rewrite bool_decide_true by eauto. simpl. by split; [eauto|destruct w].
  - right. rewrite bool_decide_false by (by intros [? ?]). simpl. rewrite E. simpl.
    split; [done|].
    destruct (parent_is_dir (fs w) path); simpl; split; try done.
    + by left.
    + right. by destruct w.
Qed.






Lemma spike_sorting_run r f a w :
  spike_sorting r f a w =
    {| value := Ok tt;
       after := {| fs := fs w; tmp_requests := tmp_requests w;
                   cache := cache w;
                   queue := (queue w ++ [spike_sorting_job r f a])%list |};
       calls := [EvSubmit (spike_sorting_job r f a)] |}.
Proof. reflexivity. Qed.




(** The pipeline and the queue hand no job to the queue. *)
Lemma silent_run_submitted self : silent submitted (run self).
Proof.
  unfold run, with_TemporaryDirectory.
  apply silent_bind; [by apply silent_mkdtemp|]. intros tmpdir.
  apply silent_with_exit; [|by apply silent_rmtree].
  unfold run_body, _mask_out_artifacts, ShellScript_run, sf_mdaio_readmda,
    se_NumpyRecordingExtractor, st_preprocessing_bandpass_filter,
    st_preprocessing_whiten, ml_ms4alg_mountainsort4_call, sf_write_sorting.
  repeat first [ apply silent_read_file | apply silent_write_file | silent_step ].
Qed.

Lemma silent_execute_job_submitted j : silent submitted (execute_job j).
Proof.
  intros w. unfold execute_job.
  destruct (if _force_run j then None else cache_lookup _ _); [done|].
  destruct (value (run (processor j) w)); cbn [calls];
    by rewrite omap_cons_match, silent_run_submitted.
Qed.

Lemma silent_run_jobs_submitted js : silent submitted (run_jobs js).
Proof.
  induction js as [|j js IH]; simpl; [by apply silent_ret|].
  apply silent_bind; [apply silent_execute_job_submitted|]. intros r.
  apply silent_bind; [apply IH|]. intros rs. apply silent_ret.
Qed.

Lemma silent_wait_submitted : silent submitted JobQueue_wait.
Proof. intros w. apply silent_run_jobs_submitted. Qed.

Lemma submitted_for_each {A} (l : list A) (body : A → M unit) (g : A → list job) :
  (∀ x w, is_ok (value (body x w)) = true → omap submitted (calls (body x w)) = g x) →
  ∀ w, is_ok (value (for_each l body w)) = true →
       omap submitted (calls (for_each l body w)) = x ← l; g x.
Proof.
  intros Hbody. induction l as [|x l IH]; intros w; simpl; [done|].
  rewrite bind_run. destruct (value (body x w)) eqn:E; [|done].
  cbn [value calls]. intros Hok.
  rewrite omap_app, Hbody, IH by (done || by rewrite E). done.
Qed.

Lemma submitted_mkdir2 path w : omap submitted (calls (mkdir2 path w)) = [].
Proof.
  destruct (mkdir2_run path w) as [[_ ->]|(_ & -> & _)]; done.
Qed.

Lemma submitted_process_ntrode a e n w :
  is_ok (value (process_ntrode a e n w)) = true →
  omap submitted (calls (process_ntrode a e n w)) = [unit_job a e n].
Proof.
  unfold process_ntrode. rewrite bind_run.
  destruct (value (mkdir2 _ w)); [|done]. cbn [value calls]. intros _.
  by rewrite omap_app, submitted_mkdir2, spike_sorting_run.
Qed.

Lemma submitted_process_epoch a e w :
  is_ok (value (process_epoch a e w)) = true →
  omap submitted (calls (process_epoch a e w)) = n ← ntrodes e; [unit_job a e n].
Proof.
  unfold process_epoch. rewrite bind_run.
  destruct (value (mkdir2 _ w)); [|done]. cbn [value calls]. intros Hok.
  rewrite omap_app, submitted_mkdir2.
  by apply submitted_for_each; [apply submitted_process_ntrode|].
Qed.

(** *** The directories in the file system *)




















End OutputPaths.

(** ** The cache *)

Section Cache.
Context `{Libraries}.

Lemma keeps_cache_ret {A} (x : A) : keeps_cache (mret x).
Proof. done. Qed.

Lemma keeps_cache_raise {A} e : keeps_cache (raise (A := A) e).
Proof. done. Qed.

Lemma keeps_cache_lift {A} (r : result A) : keeps_cache (lift r).
Proof. done. Qed.

Lemma keeps_cache_call e : keeps_cache (call e).
Proof. done. Qed.

Lemma keeps_cache_get_fs : keeps_cache get_fs.
Proof. done. Qed.

Lemma keeps_cache_put_fs f : keeps_cache (put_fs f).
Proof. done. Qed.

Lemma keeps_cache_bind {A B} (m : M A) (k : A → M B) :
  keeps_cache m → (∀ x, keeps_cache (k x)) → keeps_cache (m ≫= k).
Proof.
  intros Hm Hk w. rewrite bind_run. destruct (value (m w)); cbn [after]; [|done].
  by rewrite Hk.
Qed.

Lemma keeps_cache_with_exit {A} (body : M A) (exit : M unit) :
  keeps_cache body → keeps_cache exit → keeps_cache (with_exit body exit).
Proof. intros Hb He w. unfold with_exit. cbn [after]. by rewrite He. Qed.

Ltac keeps_cache_step :=
  first
    [ apply keeps_cache_ret | apply keeps_cache_raise | apply keeps_cache_lift
    | apply keeps_cache_call | apply keeps_cache_get_fs | apply keeps_cache_put_fs
    | apply keeps_cache_bind | apply keeps_cache_with_exit
    | match goal with
      | |- ∀ _, keeps_cache _ => intro
      | |- keeps_cache (if ?b then _ else _) => destruct b
      | |- keeps_cache (match ?x with _ => _ end) => destruct x
      end ].

Lemma keeps_cache_mkdtemp : keeps_cache tempfile_mkdtemp.
Proof.
  intros w. unfold tempfile_mkdtemp.
  assert (Hk : keeps_cache (call (EvMkdtemp (tempfile_name (tmp_requests w))) ;;
                            make_directory (tempfile_name (tmp_requests w)) ;;
                            mret (tempfile_name (tmp_requests w)))).
  { unfold make_directory. repeat keeps_cache_step. }
  by rewrite Hk.
Qed.

Lemma keeps_cache_run self : keeps_cache (run self).
Proof.
  unfold run, with_TemporaryDirectory.
  apply keeps_cache_bind; [apply keeps_cache_mkdtemp|]. intros tmpdir.
  unfold shutil_rmtree, run_body, _mask_out_artifacts, ShellScript_run,
    sf_mdaio_readmda, se_NumpyRecordingExtractor, st_preprocessing_bandpass_filter,
    st_preprocessing_whiten, ml_ms4alg_mountainsort4_call, sf_write_sorting,
    read_file, write_file.
  repeat keeps_cache_step.
Qed.

(** What [execute_job] does to the cache: one entry more after a pipeline
    that returned, no change otherwise. *)
Lemma cache_after_execute_job j w :
  cache (after (execute_job j w)) =
    match value (execute_job j w) with
    | Ok (Succeeded artifact) => (key_of (processor j), artifact) :: cache w
    | _ => cache w
    end.
Proof.
  unfold execute_job.
  destruct (if _force_run j then None else cache_lookup _ _); [done|].
  destruct (value (run (processor j) w)) eqn:E; cbn [value after cache];
    by rewrite keeps_cache_run.
Qed.

Lemma cache_lookup_other k k' artifact c :
  k ≠ k' → cache_lookup k' ((k, artifact) :: c) = cache_lookup k' c.
Proof. intros Hne. simpl. by rewrite decide_False by congruence. Qed.

Lemma execute_job_miss j w :
  cache_lookup (key_of (processor j)) (cache w) = None →
  (∀ artifact, value (execute_job j w) ≠ Ok (CacheHit artifact)) ∧
  calls (execute_job j w) = EvPipeline (key_of (processor j)) :: calls (run (processor j) w).
Proof.
  intros Hmiss. unfold execute_job. rewrite Hmiss.
  replace (if _force_run j then None else None) with (@None string)
    by (by destruct (_force_run j)).
  by destruct (value (run (processor j) w)).
Qed.

(** C7.  Two configurations are equal exactly when their eleven fields
    are; two jobs whose configurations differ have different cache keys;
    and running the first leaves the second, if it was not in the cache,
    out of the cache: it is not a cache hit, its pipeline is executed. *)
Theorem changed_configuration_misses_the_cache (j j' : job) (w : world) :
  params (processor j) ≠ params (processor j') →
  cache_lookup (key_of (processor j')) (cache w) = None →
  (∀ c c' : parameters,
     c = c' ↔
     samplerate c = samplerate c' ∧ mask_out_artifacts c = mask_out_artifacts c' ∧
     freq_min c = freq_min c' ∧ freq_max c = freq_max c' ∧ whiten c = whiten c' ∧
     detect_sign c = detect_sign c' ∧ adjacency_radius c = adjacency_radius c' ∧
     clip_size c = clip_size c' ∧ detect_threshold c = detect_threshold c' ∧
     detect_interval c = detect_interval c' ∧
     noise_overlap_threshold c = noise_overlap_threshold c') ∧
  key_of (processor j) ≠ key_of (processor j') ∧
  cache_lookup (key_of (processor j')) (cache (after (execute_job j w))) = None ∧
  (∀ artifact,
     value (execute_job j' (after (execute_job j w))) ≠ Ok (CacheHit artifact)) ∧
  EvPipeline (key_of (processor j')) ∈ calls (execute_job j' (after (execute_job j w))).
Proof.
  intros Hne Hmiss.
  assert (Hk : key_of (processor j) ≠ key_of (processor j')).
  { intros Hk. apply Hne. by apply (f_equal key_configuration) in Hk. }
  assert (Hmiss' : cache_lookup (key_of (processor j'))
                     (cache (after (execute_job j w))) = None).
  { rewrite cache_after_execute_job.
    destruct (value (execute_job j w)) as [[artifact| |]|]; try done.
    by rewrite cache_lookup_other. }
  split; [|split; [done|split; [done|]]].
  - intros c c'. split; [by intros ->|].
    destruct c, c'. simpl. by intros (-> & -> & -> & -> & -> & -> & -> & -> & -> & -> & ->).
  - destruct (execute_job_miss j' _ Hmiss') as [Hv Hc].
    split; [done|]. rewrite Hc. by left.
Qed.
End Cache.

(** ** The worker pool *)

Lemma scheduler_step_invariant N s l s' :
  Scheduler.step N s l = Some s' →
  (length (Scheduler.running s) ≤ N)%nat ∧
  Scheduler.submissions s = (Scheduler.started s ++ Scheduler.pending s)%list →
  (length (Scheduler.running s') ≤ N)%nat ∧
  Scheduler.submissions s' = (Scheduler.started s' ++ Scheduler.pending s')%list.
Proof.
  intros Hstep [Hb Hf]. destruct l as [j| |i]; simpl in Hstep.
  - injection Hstep as <-. simpl. split; [done|]. by rewrite Hf, app_assoc.
  - destruct (Scheduler.pending s) as [|j rest] eqn:Ep; [done|].
    destruct (decide _) as [Hlt|]; [|done]. injection Hstep as <-. simpl.
    split.
    + rewrite length_app. simpl. lia.
    + by rewrite Hf, <- app_assoc.
  - destruct (Scheduler.running s !! i) eqn:Ei; [|done].
    injection Hstep as <-. simpl. split; [|done].
    rewrite length_delete by (by rewrite Ei). lia.
Qed.

Lemma scheduler_steps_invariant N ls s s' :
  Scheduler.steps N s ls = Some s' →
  (length (Scheduler.running s) ≤ N)%nat ∧
  Scheduler.submissions s = (Scheduler.started s ++ Scheduler.pending s)%list →
  (length (Scheduler.running s') ≤ N)%nat ∧
  Scheduler.submissions s' = (Scheduler.started s' ++ Scheduler.pending s')%list.
Proof.
  revert s. induction ls as [|l ls IH]; intros s; simpl.
  - by intros [= <-].
  - destruct (Scheduler.step N s l) as [s1|] eqn:E; [|done].
    intros Hs Hinv. apply (IH s1 Hs). by eapply scheduler_step_invariant.
Qed.

(** C9.  In every state the pool of [N] workers reaches from the empty
    one, at most [N] jobs are running, and the jobs started so far followed
    by the jobs still waiting are the submissions in their order: jobs
    start in submission order, none overtakes another.  The pool of [main]
    has [int(args.num_jobs)] workers, one by default. *)
Theorem pool_bound_and_fifo (a : args) (ls : list Scheduler.label) (s : Scheduler.state) :
  Scheduler.steps (pool_size a) Scheduler.initial ls = Some s →
  (length (Scheduler.running s) ≤ pool_size a)%nat ∧
  Scheduler.submissions s = (Scheduler.started s ++ Scheduler.pending s)%list ∧
  (num_jobs a = default_num_jobs → (length (Scheduler.running s) ≤ 1)%nat).
Proof.
  intros Hs.
  destruct (scheduler_steps_invariant _ _ _ _ Hs) as [Hb Hf].
  { split; [simpl; lia | done]. }
  split; [done|]. split; [done|].
  intros Hd. unfold pool_size in Hb. by rewrite Hd in Hb.
Qed.

(** ** Running a job twice *)

Section Rerun.
Context `{Libraries}.





Lemma mkdtemp_fs w tmpdir :
  value (tempfile_mkdtemp w) = Ok tmpdir →
  tmpdir = tempfile_name (tmp_requests w) ∧ fs w !! tmpdir = None ∧
  fs (after (tempfile_mkdtemp w)) = <[tmpdir := Dir]> (fs w).
Proof.
  unfold tempfile_mkdtemp, make_directory. rewrite !bind_run. simpl.
  destruct (fs w !! tempfile_name (tmp_requests w)) eqn:E; simpl; [done|].
  destruct (parent_is_dir (fs w) (tempfile_name (tmp_requests w))); simpl; [|done].
  by intros [= <-].
Qed.

Lemma write_file_ok path c w :
  value (write_file path c w) = Ok tt →
  fs (after (write_file path c w)) = <[path := File c]> (fs w).
Proof.
  unfold write_file. rewrite bind_run. simpl.
  destruct (fs w !! path) as [[|c']|]; simpl; try done;
    by destruct (parent_is_dir (fs w) path).
Qed.

Lemma write_sorting_ok s path w :
  value (sf_write_sorting s path w) = Ok tt →
  ∃ b, write_sorting_bytes s = Ok b ∧
       fs (after (sf_write_sorting s path w)) = <[path := File b]> (fs w).
Proof.
  unfold sf_write_sorting. rewrite !bind_run. cbn [call lift value after calls].
  destruct (write_sorting_bytes s) as [b|]; [|done]. cbn [value after calls].
  intros Hv. exists b. split; [done|]. by apply write_file_ok.
Qed.

Lemma call_lift_bind {A B} e (r : result A) (k : A → M B) w :
  ((call e ;; lift r) ≫= k) w =
    match r with
    | Ok x => {| value := value (k x w); after := after (k x w);
                 calls := e :: calls (k x w) |}
    | Raise err => {| value := Raise err; after := w; calls := [e] |}
    end.
Proof. rewrite bind_run, call_lift_run. by destruct r. Qed.

Lemma after_load_ok self X w :
  value (after_load self X w) = Ok tt →
  ∃ b, after_load_bytes self X = Ok b ∧
       fs (after (after_load self X w)) = <[firings_out self := File b]> (fs w).
Proof.
  unfold after_load, after_load_bytes, se_NumpyRecordingExtractor,
    st_preprocessing_bandpass_filter, st_preprocessing_whiten,
    ml_ms4alg_mountainsort4_call.
  rewrite call_lift_bind.
  destruct (NumpyRecordingExtractor _ _ _) as [r|]; [|done]. cbn [value after].
  rewrite call_lift_bind.
  destruct (preprocessing_bandpass_filter _ _ _) as [r1|]; [|done]. cbn [value after].
  destruct (whiten self).
  - rewrite call_lift_bind.
    destruct (preprocessing_whiten r1) as [r2|]; [|done]. cbn [value after].
    rewrite call_lift_bind.
    destruct (ml_ms4alg_mountainsort4 _ _ _ _ _ _ _) as [s|]; [|done].
    cbn [value after]. apply write_sorting_ok.
  - rewrite bind_run. cbn [mret M_ret ret value after calls].
    rewrite call_lift_bind.
    destruct (ml_ms4alg_mountainsort4 _ _ _ _ _ _ _) as [s|]; [|done].
    cbn [value after]. apply write_sorting_ok.
Qed.

Lemma readmda_ok path w X :
  value (sf_mdaio_readmda path w) = Ok X →
  ∃ c, fs w !! path = Some (File c) ∧ mdaio_readmda c = Ok X ∧
       after (sf_mdaio_readmda path w) = w.
Proof.
  unfold sf_mdaio_readmda, read_file. rewrite !bind_run. simpl.
  destruct (fs w !! path) as [[|c]|]; simpl; try done.
  intros Hv. by exists c.
Qed.

Lemma load_ok self path w :
  value ((X ← sf_mdaio_readmda path; after_load self X) w) = Ok tt →
  ∃ c b, fs w !! path = Some (File c) ∧ artifact_bytes self c = Ok b ∧
         fs (after ((X ← sf_mdaio_readmda path; after_load self X) w))
           = <[firings_out self := File b]> (fs w).
Proof.
  rewrite bind_run. destruct (value (sf_mdaio_readmda path w)) as [X|] eqn:E; [|done].
  cbn [value after]. destruct (readmda_ok _ _ _ E) as (c & Hc & HX & ->).
  intros Hv. destruct (after_load_ok _ _ _ Hv) as (b & Hb & Hfs).
  exists c, b. unfold artifact_bytes. by rewrite HX.
Qed.

Lemma run_body_ok self tmpdir w :
  value (run_body self tmpdir w) = Ok tt →
  ∃ c b,
    artifact_bytes self c = Ok b ∧
    fs (after (run_body self tmpdir w)) !! firings_out self = Some (File b) ∧
    if mask_out_artifacts self then
      (shell_process (mask_script (recording_file_in self) (tmpdir ++ "/raw.mda"))
         (fs w)).1 = 0 ∧
      foldl leave_file (fs w)
        (shell_process (mask_script (recording_file_in self) (tmpdir ++ "/raw.mda"))
           (fs w)).2 !! (tmpdir ++ "/raw.mda") = Some (File c)
    else fs w !! recording_file_in self = Some (File c).
Proof.
  rewrite run_body_stages. destruct (mask_out_artifacts self).
  - destruct (mask_out_artifacts_run (recording_file_in self) (tmpdir ++ "/raw.mda") w)
      as (_ & Hmv & Hma).
    destruct (decide (_ ≠ 0)) as [|Hz].
    + erewrite bind_raise; [done|]. by erewrite bind_raise.
    + erewrite bind_ok; [|by erewrite bind_ok].
      cbn [value after]. erewrite (bind_ok (_mask_out_artifacts _ _)) by done.
      cbn [value after].
      intros Hv. destruct (load_ok _ _ _ Hv) as (c & b & Hc & Hb & Hfs).
      exists c, b. split; [done|]. split; [by rewrite Hfs, lookup_insert_eq|].
      cbn [mret M_ret ret after] in Hc. rewrite Hma in Hc. split; [|done].
      destruct (decide ((shell_process
                  (mask_script (recording_file_in self) (tmpdir ++ "/raw.mda"))
                  (fs w)).1 = 0)) as [|Hnz]; [done | by destruct Hz].
  - erewrite bind_ok by done. cbn [value after].
    intros Hv. destruct (load_ok _ _ _ Hv) as (c & b & Hc & Hb & Hfs).
    exists c, b. split; [done|]. split; [by rewrite Hfs, lookup_insert_eq|done].
Qed.

(** What a run that returns has loaded and written. *)
Lemma run_ok self w :
  value (run self w) = Ok tt →
  under (tempfile_name (tmp_requests w)) (firings_out self) = false →
  ∃ tmpdir c b,
    value (tempfile_mkdtemp w) = Ok tmpdir ∧
    artifact_bytes self c = Ok b ∧
    fs (after (run self w)) !! firings_out self = Some (File b) ∧
    if mask_out_artifacts self then
      (shell_process (mask_script (recording_file_in self) (tmpdir ++ "/raw.mda"))
         (<[tmpdir := Dir]> (fs w))).1 = 0 ∧
      foldl leave_file (<[tmpdir := Dir]> (fs w))
        (shell_process (mask_script (recording_file_in self) (tmpdir ++ "/raw.mda"))
           (<[tmpdir := Dir]> (fs w))).2 !! (tmpdir ++ "/raw.mda") = Some (File c)
    else <[tmpdir := Dir]> (fs w) !! recording_file_in self = Some (File c).
Proof.
  intros Hv Hout. unfold run, with_TemporaryDirectory in *.
  rewrite bind_run in *.
  destruct (value (tempfile_mkdtemp w)) as [tmpdir|] eqn:Ht; [|done].
  destruct (mkdtemp_fs _ _ Ht) as (Hname & Hfresh & Hfs1).
  destruct (mkdtemp_returns _ _ Ht) as [_ Hd].
  set (w1 := after (tempfile_mkdtemp w)) in *.
  unfold with_exit in *. cbn [value after calls] in *.
  set (body := run_body self tmpdir w1) in *.
  assert (Hdir : fs (after body) !! tmpdir = Some Dir).
  { by apply keeps_dirs_run_body. }
  destruct (rmtree_removes _ _ Hdir) as [Hrm _]. rewrite Hrm in Hv.
  destruct (run_body_ok _ _ _ Hv) as (c & b & Hb & Hfo & Hload). fold body in Hfo.
  exists tmpdir, c, b. rewrite <- Hfs1. split; [done|]. split; [done|]. split; [|done].
  unfold shutil_rmtree. rewrite !bind_run. simpl. rewrite Hdir. simpl.
  apply map_lookup_filter_Some. split; [done|]. simpl. by rewrite <- Hname in Hout.
Qed.





End Rerun.

(** ** Two executions of a job *)

Section TwoExecutions.
Context (L1 L2 : Libraries).

End TwoExecutions.

(** ** Names, paths and listings *)

Lemma substring_0_0 (s : string) : substring 0 0 s = EmptyString.
Proof. by destruct s. Qed.

Lemma substring_all (s : string) : substring 0 (String.length s) s = s.
Proof. induction s as [|a s IH]; [done|]. simpl. by rewrite IH. Qed.

Lemma substring_split (n : nat) (s : string) :
  (n ≤ String.length s)%nat →
  substring 0 n s ++ substring n (String.length s - n) s = s.
Proof.
  revert n. induction s as [|a s IH]; intros n Hn.
  - simpl in Hn. by replace n with 0%nat by lia.
  - destruct n as [|n].
    + rewrite substring_0_0, Nat.sub_0_r, substring_all. done.
    + simpl in Hn. simpl. rewrite append_cons. f_equal. apply IH. lia.
Qed.

(** [endswith] and the slice [s[0:-4]] undo each other on the suffix
    [.mda]. *)
Lemma endswith_mda_drop_last4 (s : string) :
  endswith s ".mda" = true → drop_last4 s ++ ".mda" = s.
Proof.
  unfold endswith, drop_last4. intros Hs.
  apply andb_true_iff in Hs as [Hlen Heq].
  apply Nat.leb_le in Hlen. apply String.eqb_eq in Heq.
  change (String.length ".mda") with 4%nat in *.
  etrans; [|apply (substring_split (String.length s - 4) s); lia].
  f_equal. rewrite <- Heq. f_equal. lia.
Qed.

Lemma dirname_basename (p d : string) :
  dirname p = Some d → p = d ++ "/" ++ basename p.
Proof.
  revert d. induction p as [|a s IH]; intros d; simpl; [done|].
  destruct (dirname s) as [d'|] eqn:E.
  - intros [= <-]. rewrite append_cons. f_equal. by apply IH.
  - destruct (Ascii.eqb a "/") eqn:Ea; [|done].
    intros [= <-]. apply Ascii.eqb_eq in Ea as ->. done.
Qed.

Lemma StronglySorted_sublist {A} (R : relation A) (l1 l2 : list A) :
  l1 `sublist_of` l2 → StronglySorted R l2 → StronglySorted R l1.
Proof.
  induction 1 as [|x l1 l2 Hs IH|x l1 l2 Hs IH]; intros Hsorted.
  - constructor.
  - apply StronglySorted_inv in Hsorted as [Hl2 Hx].
    constructor; [by apply IH|].
    apply Forall_forall. intros y Hy.
    eapply Forall_forall; [exact Hx|]. by eapply sublist_subseteq.
  - apply StronglySorted_inv in Hsorted as [Hl2 _]. by apply IH.
Qed.

Lemma NoDup_omap_inj {A B} (f : A → option B) (l : list A) :
  NoDup l →
  (∀ x y z, x ∈ l → y ∈ l → f x = Some z → f y = Some z → x = y) →
  NoDup (omap f l).
Proof.
  induction 1 as [|x l Hx Hl IH]; intros Hinj; simpl; [constructor|].
  assert (Hrest : NoDup (omap f l)).
  { apply IH. intros a b z Ha Hb. apply Hinj; by right. }
  destruct (f x) as [z|] eqn:E; [|done].
  constructor; [|done].
  intros Hin. apply list_elem_of_omap in Hin as (y & Hy & Hfy).
  assert (x = y) as ->; [|done].
  eapply Hinj; [by left | by right | done | done].
Qed.

(** ** The load phase *)

Section LoadPhase.
Context `{Libraries} `{Mountaintools}.

Lemma frozen_ret {A} (x : A) : frozen (mret x).
Proof. done. Qed.

Lemma frozen_raise {A} e : frozen (raise (A := A) e).
Proof. done. Qed.

Lemma frozen_lift {A} (r : result A) : frozen (lift r).
Proof. done. Qed.

Lemma frozen_get_fs : frozen get_fs.
Proof. done. Qed.

Lemma frozen_bind {A B} (m : M A) (k : A → M B) :
  frozen m → (∀ x, frozen (k x)) → frozen (m ≫= k).
Proof.
  intros Hm Hk w. destruct (Hm w) as [Ha Hc]. rewrite bind_run.
  destruct (value (m w)) as [x|]; cbn [after calls]; [|done].
  rewrite Ha, Hc. apply Hk.
Qed.

(** A frozen computation in front of another one only passes its value
    on. *)
Lemma frozen_bind_run {A B} (m : M A) (k : A → M B) w :
  frozen m →
  (m ≫= k) w =
    match value (m w) with
    | Ok x => k x w
    | Raise e => {| value := Raise e; after := w; calls := [] |}
    end.
Proof.
  intros Hm. destruct (Hm w) as [Ha Hc]. rewrite bind_run, Ha, Hc.
  destruct (value (m w)) as [x|]; [|done]. by destruct (k x w).
Qed.

Lemma frozen_os_listdir path : frozen (os_listdir path).
Proof.
  unfold os_listdir. apply frozen_bind; [apply frozen_get_fs|]. intros f.
  destruct (f !! path) as [[|c]|];
    [apply frozen_ret | apply frozen_raise | apply frozen_raise].
Qed.

Lemma frozen_mda_names path : frozen (mda_names path).
Proof.
  unfold mda_names. apply frozen_bind; [apply frozen_os_listdir|].
  intros names. apply frozen_ret.
Qed.

Lemma frozen_load_ntrode path name : frozen (load_ntrode path name).
Proof.
  unfold load_ntrode, mt_createSnapshot.
  repeat first [ apply frozen_bind | apply frozen_get_fs | apply frozen_lift
               | apply frozen_ret | intro ].
Qed.

Lemma frozen_for_list {A B} (l : list A) (body : A → M B) :
  (∀ x, frozen (body x)) → frozen (for_list l body).
Proof.
  intros Hb. induction l as [|x l IH]; simpl; [apply frozen_ret|].
  apply frozen_bind; [apply Hb|]. intros y.
  apply frozen_bind; [apply IH|]. intros ys. apply frozen_ret.
Qed.

Lemma frozen_load_epoch path name test : frozen (load_epoch path name test).
Proof.
  unfold load_epoch. apply frozen_bind; [apply frozen_mda_names|]. intros names.
  apply frozen_bind; [|intros ns; apply frozen_ret].
  apply frozen_for_list. intros x. apply frozen_load_ntrode.
Qed.

Lemma frozen_load_epochs a : frozen (load_epochs a).
Proof.
  unfold load_epochs. apply frozen_bind; [apply frozen_mda_names|]. intros names.
  apply frozen_for_list. intros x. apply frozen_load_epoch.
Qed.

(** What [os.listdir] returns: the names, each once, of the entries whose
    parent is [path]. *)
Lemma os_listdir_ok path w names :
  value (os_listdir path w) = Ok names →
  fs w !! path = Some Dir ∧ NoDup names ∧
  ∀ name, name ∈ names ↔
          ∃ q, is_Some (fs w !! q) ∧ dirname q = Some path ∧ basename q = name.
Proof.
  unfold os_listdir. rewrite bind_run. cbn [get_fs value after calls].
  destruct (fs w !! path) as [[|c]|] eqn:Ep; [|done..].
  intros [= <-]. split; [done|]. split.
  - apply NoDup_omap_inj; [apply NoDup_map_to_list|].
    intros [q x] [q' x'] name Hq Hq'. simpl.
    destruct (decide (dirname q = Some path)) as [Hd|]; [|done].
    destruct (decide (dirname q' = Some path)) as [Hd'|]; [|done].
    intros [= Hb] [= Hb'].
    assert (q = q') as <-.
    { rewrite (dirname_basename _ _ Hd), (dirname_basename _ _ Hd'). by rewrite Hb, Hb'. }
    apply elem_of_map_to_list in Hq, Hq'. rewrite Hq in Hq'. by injection Hq' as <-.
  - intros name. rewrite list_elem_of_omap. split.
    + intros ([q x] & Hin & Hf). simpl in Hf.
      destruct (decide (dirname q = Some path)) as [Hd|]; [|done].
      injection Hf as <-. apply elem_of_map_to_list in Hin. exists q. eauto.
    + intros (q & [x Hx] & Hd & <-). exists (q, x). split.
      * by apply elem_of_map_to_list.
      * simpl. by rewrite decide_True.
Qed.

(** What the expression of lines 39 and 78 returns: the names that end in
    [.mda] of the entries directly in [path], each once, in ascending
    order. *)
Lemma mda_names_ok path w names :
  value (mda_names path w) = Ok names →
  fs w !! path = Some Dir ∧ StronglySorted String.le names ∧ NoDup names ∧
  ∀ name, name ∈ names ↔
          endswith name ".mda" = true ∧
          ∃ q, is_Some (fs w !! q) ∧ dirname q = Some path ∧ basename q = name.
Proof.
  unfold mda_names. rewrite frozen_bind_run by apply frozen_os_listdir.
  destruct (value (os_listdir path w)) as [all|] eqn:E; [|done].
  destruct (os_listdir_ok _ _ _ E) as (Hd & Hnd & Hall).
  intros [= <-]. split; [done|]. split; [|split].
  - eapply StronglySorted_sublist; [apply sublist_filter; apply _|].
    apply StronglySorted_merge_sort; apply _.
  - apply NoDup_filter. by rewrite merge_sort_Permutation.
  - intros name. rewrite list_elem_of_filter, merge_sort_Permutation, Hall. done.
Qed.

Lemma mda_names_error path w :
  fs w !! path ≠ Some Dir →
  value (mda_names path w) =
    Raise (match fs w !! path with
           | Some _ => NotADirectoryError path
           | None => FileNotFoundError path
           end).
Proof.
  intros Hd. unfold mda_names, os_listdir. rewrite !bind_run. cbn [get_fs value after].
  by destruct (fs w !! path) as [[|c]|].
Qed.

Lemma for_list_ok {A B} (l : list A) (body : A → M B) w ys :
  (∀ x, frozen (body x)) →
  value (for_list l body w) = Ok ys →
  Forall2 (λ x y, value (body x w) = Ok y) l ys.
Proof.
  intros Hb. revert ys. induction l as [|x l IH]; intros ys; simpl.
  - intros [= <-]. constructor.
  - rewrite frozen_bind_run by apply Hb.
    destruct (value (body x w)) as [y|] eqn:Ey; [|done].
    rewrite frozen_bind_run by (by apply frozen_for_list).
    destruct (value (for_list l body w)) as [ys'|] eqn:Eys; [|done].
    intros [= <-]. constructor; [done|]. by apply IH.
Qed.

Lemma for_list_take {A B} (l : list A) (body : A → M B) w ys n :
  (∀ x, frozen (body x)) →
  value (for_list l body w) = Ok ys →
  value (for_list (take n l) body w) = Ok (take n ys).
Proof.
  intros Hb. revert ys n. induction l as [|x l IH]; intros ys n; simpl.
  - intros [= <-]. by destruct n.
  - rewrite frozen_bind_run by apply Hb.
    destruct (value (body x w)) as [y|] eqn:Ey; [|done].
    rewrite frozen_bind_run by (by apply frozen_for_list).
    destruct (value (for_list l body w)) as [ys'|] eqn:Eys; [|done].
    intros [= <-]. destruct n as [|n]; simpl; [done|].
    rewrite frozen_bind_run, Ey by apply Hb.
    rewrite frozen_bind_run by (by apply frozen_for_list).
    by rewrite (IH ys' n eq_refl).
Qed.

Lemma load_ntrode_ok path name w n :
  value (load_ntrode path name w) = Ok n →
  ntrode_name n = name ∧ ntrode_path n = path ∧
  createSnapshot path (fs w) = Ok (recording_file n).
Proof.
  unfold load_ntrode, mt_createSnapshot. rewrite !bind_run.
  cbn [get_fs lift value after].
  destruct (createSnapshot path (fs w)) as [s|]; [|done].
  by intros [= <-].
Qed.
End LoadPhase.

(** ** What is loaded *)

Section Loaded.
Context `{Libraries} `{Mountaintools}.

Lemma load_epoch_ok path name test w e :
  value (load_epoch path name test w) = Ok e →
  ∃ names,
    value (mda_names path w) = Ok names ∧
    epoch_path e = path ∧ epoch_name e = name ∧
    Forall2 (λ name2 n,
               value (load_ntrode (path ++ "/" ++ name2) (drop_last4 name2) w) = Ok n)
            (if test then take 2 names else names) (ntrodes e).
Proof.
  unfold load_epoch. rewrite frozen_bind_run by apply frozen_mda_names.
  destruct (value (mda_names path w)) as [names|] eqn:En; [|done].
  rewrite frozen_bind_run
    by (apply frozen_for_list; intros x; apply frozen_load_ntrode).
  destruct (value (for_list _ _ w)) as [ns|] eqn:Ens; [|done].
  intros [= <-]. exists names. repeat split; try done.
  apply for_list_ok in Ens; [done|]. intros x. apply frozen_load_ntrode.
Qed.

Lemma processed_names_ok path w names (test : bool) name2 :
  value (mda_names path w) = Ok names →
  name2 ∈ (if test then take 2 names else names) →
  drop_last4 name2 ++ ".mda" = name2 ∧
  is_Some (fs w !! (path ++ "/" ++ name2)) ∧
  dirname (path ++ "/" ++ name2) = Some path.
Proof.
  intros Hn Hin. destruct (mda_names_ok _ _ _ Hn) as (_ & _ & _ & Hmem).
  assert (Hin' : name2 ∈ names).
  { destruct test; [by eapply subseteq_take|done]. }
  apply Hmem in Hin' as (Hend & q & Hq & Hd & <-).
  split; [by apply endswith_mda_drop_last4|].
  by rewrite <- (dirname_basename _ _ Hd).
Qed.

Lemma loaded_ntrodes_files path name test w e :
  value (load_epoch path name test w) = Ok e →
  epoch_path e = path ∧ epoch_name e = name ∧
  ∀ n, n ∈ ntrodes e →
       ntrode_path n = path ++ "/" ++ ntrode_name n ++ ".mda" ∧
       is_Some (fs w !! ntrode_path n) ∧
       dirname (ntrode_path n) = Some path ∧
       createSnapshot (ntrode_path n) (fs w) = Ok (recording_file n).
Proof.
  intros He. destruct (load_epoch_ok _ _ _ _ _ He) as (names & Hn & Hp & Hname & Hall).
  split; [done|]. split; [done|]. intros n Hin.
  apply list_elem_of_lookup in Hin as [i Hi].
  destruct (Forall2_lookup_r _ _ _ _ _ Hall Hi) as (name2 & Hi2 & Hload).
  apply load_ntrode_ok in Hload as (Hnn & Hnp & Hsnap).
  destruct (processed_names_ok path w names test name2 Hn) as (Hrt & Hex & Hd).
  { apply list_elem_of_lookup. eauto. }
  rewrite Hnp, Hnn, Hrt. done.
Qed.

(** X1.  Every ntrode [load_epoch] returns stands for an entry of the file
    system directly in the epoch's directory, named [<name>.mda] after the
    ntrode, and carries the snapshot of that entry. *)
Theorem loaded_ntrodes_are_mda_files
    (path name : string) (test : bool) (w : world) (e : epoch) :
  value (load_epoch path name test w) = Ok e →
  epoch_path e = path ∧ epoch_name e = name ∧
  ∀ n, n ∈ ntrodes e →
       ntrode_path n = path ++ "/" ++ ntrode_name n ++ ".mda" ∧
       is_Some (fs w !! ntrode_path n) ∧
       dirname (ntrode_path n) = Some path ∧
       createSnapshot (ntrode_path n) (fs w) = Ok (recording_file n).
Proof. apply loaded_ntrodes_files. Qed.

Lemma loaded_file_names path name test w e :
  value (load_epoch path name test w) = Ok e →
  ∃ names,
    value (mda_names path w) = Ok names ∧
    (λ s, s ++ ".mda") <$> (ntrode_name <$> ntrodes e)
      = (if test then take 2 names else names) ∧
    ntrode_path <$> ntrodes e
      = (λ s, path ++ "/" ++ s) <$> (if test then take 2 names else names).
Proof.
  intros He. destruct (load_epoch_ok _ _ _ _ _ He) as (names & Hn & _ & _ & Hall).
  exists names. split; [done|].
  assert (Hmem : ∀ name2, name2 ∈ (if test then take 2 names else names) →
                          drop_last4 name2 ++ ".mda" = name2).
  { intros name2 Hin. by destruct (processed_names_ok path w names test name2 Hn Hin). }
  revert Hmem Hall. generalize (if test then take 2 names else names).
  intros l Hmem Hall. induction Hall as [|name2 n l' ns Hload Hall IH]; [done|].
  apply load_ntrode_ok in Hload as (Hnn & Hnp & _).
  destruct IH as [IH1 IH2]; [intros x Hx; apply Hmem; by right|].
  simpl. rewrite Hnn, Hnp, Hmem by (by left). split; f_equal; done.
Qed.

(** X2.  The ntrodes of a loaded epoch come in ascending order of their
    file names, and no two of them have the same name. *)
Theorem loaded_ntrodes_are_sorted_and_distinct
    (path name : string) (test : bool) (w : world) (e : epoch) :
  value (load_epoch path name test w) = Ok e →
  StronglySorted String.le ((λ n, ntrode_name n ++ ".mda") <$> ntrodes e) ∧
  NoDup (ntrode_name <$> ntrodes e).
Proof.
  intros He. destruct (loaded_file_names _ _ _ _ _ He) as (names & Hn & Hfiles & _).
  destruct (mda_names_ok _ _ _ Hn) as (_ & Hsorted & Hnd & _).
  assert (Hsub : (if test then take 2 names else names) `sublist_of` names).
  { destruct test; [apply sublist_take | done]. }
  split.
  - rewrite <- list_fmap_compose in Hfiles.
    change ((λ n, ntrode_name n ++ ".mda") <$> ntrodes e)
      with (((λ s, s ++ ".mda") ∘ ntrode_name) <$> ntrodes e).
    rewrite Hfiles. by eapply StronglySorted_sublist.
  - apply (NoDup_fmap_1 (λ s, s ++ ".mda")). rewrite Hfiles.
    by eapply sublist_NoDup.
Qed.

(** X3.  With the test flag, [load_epoch] returns what it returns without
    the flag, cut down to the first two ntrodes. *)
Theorem test_flag_keeps_the_first_two_ntrodes
    (path name : string) (w : world) (e : epoch) :
  value (load_epoch path name false w) = Ok e →
  value (load_epoch path name true w) = Ok (first_two_ntrodes e) ∧
  (length (ntrodes (first_two_ntrodes e)) ≤ 2)%nat.
Proof.
  intros He. split; [|simpl; rewrite length_take; lia].
  unfold load_epoch in *. rewrite frozen_bind_run in * by apply frozen_mda_names.
  destruct (value (mda_names path w)) as [names|] eqn:En; [|done].
  rewrite frozen_bind_run in *
    by (apply frozen_for_list; intros x; apply frozen_load_ntrode).
  destruct (value (for_list names _ w)) as [ns|] eqn:Ens; [|done].
  injection He as <-.
  rewrite (for_list_take _ _ _ _ 2 (λ x, frozen_load_ntrode _ _) Ens). done.
Qed.

(** X4.  Without the test flag, every entry directly in the epoch's
    directory whose name ends in [.mda] is among the loaded ntrodes. *)
Theorem every_mda_file_is_loaded
    (path name : string) (w : world) (e : epoch) (q : string) :
  value (load_epoch path name false w) = Ok e →
  is_Some (fs w !! q) → dirname q = Some path →
  endswith (basename q) ".mda" = true →
  q ∈ ntrode_path <$> ntrodes e.
Proof.
  intros He Hq Hd Hend.
  destruct (loaded_file_names _ _ _ _ _ He) as (names & Hn & _ & Hpaths).
  destruct (mda_names_ok _ _ _ Hn) as (_ & _ & _ & Hmem).
  rewrite Hpaths. apply list_elem_of_fmap. exists (basename q). split.
  - by apply dirname_basename.
  - apply Hmem. eauto.
Qed.
End Loaded.

(** ** The whole script *)

Section WholeScript.
Context `{Libraries} `{Mountaintools}.

Lemma main_script_run a w :
  main_script a w =
    match value (load_epochs a w) with
    | Ok epochs => main a epochs w
    | Raise e => {| value := Raise e; after := w; calls := [] |}
    end.
Proof. unfold main_script. apply frozen_bind_run, frozen_load_epochs. Qed.

Lemma load_epochs_ok a w epochs :
  value (load_epochs a w) = Ok epochs →
  ∃ names,
    value (mda_names (input a) w) = Ok names ∧
    Forall2 (λ name e,
               value (load_epoch (input a ++ "/" ++ name) (drop_last4 name)
                        (test a) w) = Ok e)
            (if test a then take 2 names else names) epochs.
Proof.
  unfold load_epochs. rewrite frozen_bind_run by apply frozen_mda_names.
  destruct (value (mda_names (input a) w)) as [names|] eqn:En; [|done].
  intros Hes. exists names. split; [done|].
  apply for_list_ok in Hes; [done|]. intros x. apply frozen_load_epoch.
Qed.


(** X6.  When the first [.mda] entry of the input directory is a regular
    file and not a directory of ntrodes, [main] raises
    [NotADirectoryError] for it before it creates a directory or hands over
    a job. *)
Theorem epoch_that_is_a_file_stops_main
    (a : args) (w : world) (name : string) (names : list string) (c : bytes) :
  value (mda_names (input a) w) = Ok (name :: names) →
  fs w !! (input a ++ "/" ++ name) = Some (File c) →
  main_script a w =
    {| value := Raise (NotADirectoryError (input a ++ "/" ++ name));
       after := w; calls := [] |}.
Proof.
  intros Hn Hf. rewrite main_script_run.
  assert (He : value (load_epochs a w)
               = Raise (NotADirectoryError (input a ++ "/" ++ name))).
  { unfold load_epochs. rewrite frozen_bind_run, Hn by apply frozen_mda_names.
    assert (Hl : value (load_epoch (input a ++ "/" ++ name) (drop_last4 name) (test a) w)
                 = Raise (NotADirectoryError (input a ++ "/" ++ name))).
    { unfold load_epoch. rewrite frozen_bind_run by apply frozen_mda_names.
      rewrite mda_names_error by (by rewrite Hf). by rewrite Hf. }
    destruct (test a); simpl;
      rewrite frozen_bind_run by apply frozen_load_epoch; by rewrite Hl. }
  by rewrite He.
Qed.

Lemma submitted_main a epochs w :
  is_ok (value (main a epochs w)) = true →
  omap submitted (calls (main a epochs w)) = expected_jobs a epochs.
Proof.
  unfold main. rewrite bind_run.
  destruct (value (mkdir2 (output a) w)); [|done]. cbn [value calls].
  rewrite bind_run.
  destruct (value (for_each epochs (process_epoch a) _)) eqn:Ev; [|done].
  cbn [value calls]. intros _.
  rewrite !omap_app, submitted_mkdir2, silent_wait_submitted, app_nil_r.
  apply submitted_for_each; [apply submitted_process_epoch | by rewrite Ev].
Qed.

Lemma elem_of_expected_jobs a epochs j :
  j ∈ expected_jobs a epochs ↔
  ∃ e n, e ∈ epochs ∧ n ∈ ntrodes e ∧ j = unit_job a e n.
Proof.
  unfold expected_jobs. rewrite list_elem_of_bind. split.
  - intros (e & Hj & He). apply list_elem_of_bind in Hj as (n & Hj & Hn).
    apply list_elem_of_singleton in Hj. eauto.
  - intros (e & n & He & Hn & ->). exists e. split; [|done].
    apply list_elem_of_bind. exists n. split; [|done]. by apply list_elem_of_singleton.
Qed.

(** X7.  A [main] that ends without an exception has handed over exactly
    one job for each ntrode file [<input>/<E>.mda/<N>.mda] it found, in
    order: the job's input is the snapshot of that file, its output path
    is [<output>/<E>/<N>/firings.mda], and its [_force_run] is the
    [--force_run] flag. *)
Theorem main_hands_over_one_job_per_file (a : args) (w : world) :
  is_ok (value (main_script a w)) = true →
  ∃ epochs,
    value (load_epochs a w) = Ok epochs ∧
    omap submitted (calls (main_script a w)) = expected_jobs a epochs ∧
    ∀ j, j ∈ expected_jobs a epochs →
         ∃ E N,
           is_Some (fs w !! ((input a ++ "/" ++ E ++ ".mda") ++ "/" ++ N ++ ".mda")) ∧
           createSnapshot ((input a ++ "/" ++ E ++ ".mda") ++ "/" ++ N ++ ".mda") (fs w)
             = Ok (recording_file_in (processor j)) ∧
           firings_out (processor j)
             = output a ++ "/" ++ E ++ "/" ++ N ++ "/firings.mda" ∧
           _force_run j = force_run a.
Proof.
  rewrite main_script_run.
  destruct (value (load_epochs a w)) as [epochs|] eqn:El; [|done].
  intros Hok. exists epochs. split; [done|]. split; [by apply submitted_main|].
  intros j Hj. apply elem_of_expected_jobs in Hj as (e & n & He & Hn & ->).
  destruct (load_epochs_ok _ _ _ El) as (names & Hnames & Hall).
  apply list_elem_of_lookup in He as [i Hi].
  destruct (Forall2_lookup_r _ _ _ _ _ Hall Hi) as (name & Hi' & Hload).
  destruct (processed_names_ok (input a) w names (test a) name Hnames) as (Hrt & _ & _).
  { apply list_elem_of_lookup. eauto. }
  destruct (loaded_ntrodes_files _ _ _ _ _ Hload) as (Hp & Hname & Hns).
  destruct (Hns n Hn) as (Hnp & Hex & _ & Hsnap).
  exists (epoch_name e), (ntrode_name n).
  assert (Hpath : (input a ++ "/" ++ epoch_name e ++ ".mda") ++ "/" ++ ntrode_name n ++ ".mda"
                  = ntrode_path n) by (by rewrite Hname, Hrt, Hnp).
  rewrite Hpath. done.
Qed.
End WholeScript.

(** ** [mkdir2] and the size of a test run *)

Section Directories.
Context `{Libraries} `{Mountaintools}.

Lemma outcome_eta {A} (o : outcome A) :
  {| value := value o; after := after o; calls := calls o |} = o.
Proof. by destruct o. Qed.

(** X8.  [mkdir2] twice is [mkdir2] once: the result, the world and the
    calls are the same, so the second one makes no call to [os.mkdir]. *)
Theorem mkdir2_twice_is_mkdir2_once (path : string) (w : world) :
  (mkdir2 path ;; mkdir2 path) w = mkdir2 path w.
Proof.
  rewrite bind_run.
  destruct (mkdir2_run path w) as [[Hs Hr] | (Hn & Hc & [[Hv Hfs] | [Hv Ha]])].
  - rewrite Hr. cbn [value after calls]. by rewrite Hr.
  - rewrite Hv.
    destruct (mkdir2_run path (after (mkdir2 path w))) as [[_ Hr2] | [Hn2 _]].
    + rewrite Hr2. cbn [value after calls]. rewrite app_nil_r, <- Hv.
      apply outcome_eta.
    + by rewrite Hfs, lookup_insert_eq in Hn2.
  - destruct (value (mkdir2 path w)) as [|e] eqn:Ev; [done|].
    rewrite <- Ev. apply outcome_eta.
Qed.




Lemma length_expected_jobs a epochs k :
  Forall (λ e, (length (ntrodes e) ≤ k)%nat) epochs →
  (length (expected_jobs a epochs) ≤ length epochs * k)%nat.
Proof.
  unfold expected_jobs. induction 1 as [|e es He _ IH]; [done|].
  change (mbind ?f (e :: es)) with ((f e ++ mbind f es)%list).
  rewrite length_app. cbn [length].
  assert (Hl : length (n ← ntrodes e; [unit_job a e n]) = length (ntrodes e)).
  { clear He. induction (ntrodes e) as [|n ns IHn]; [done|].
    change (mbind ?f (n :: ns)) with ((f n ++ mbind f ns)%list).
    rewrite length_app, IHn. done. }
  rewrite Hl. lia.
Qed.

(** X11.  With [--test], a [main] that ends without an exception has
    handed over at most four jobs: two epochs of two ntrodes. *)
Theorem test_run_hands_over_at_most_four_jobs (a : args) (w : world) :
  test a = true →
  is_ok (value (main_script a w)) = true →
  (length (omap submitted (calls (main_script a w))) ≤ 4)%nat.
Proof.
  intros Ht. rewrite main_script_run.
  destruct (value (load_epochs a w)) as [epochs|] eqn:El; [|done].
  intros Hok. rewrite (submitted_main _ _ _ Hok).
  destruct (load_epochs_ok _ _ _ El) as (names & _ & Hall). rewrite Ht in Hall.
  assert (Hlen : (length epochs ≤ 2)%nat).
  { rewrite <- (Forall2_length _ _ _ Hall), length_take. lia. }
  assert (Hns : Forall (λ e, (length (ntrodes e) ≤ 2)%nat) epochs).
  { apply Forall_forall. intros e He.
    apply list_elem_of_lookup in He as [i Hi].
    destruct (Forall2_lookup_r _ _ _ _ _ Hall Hi) as (name & _ & Hload).
    destruct (load_epoch_ok _ _ _ _ _ Hload) as (names2 & _ & _ & _ & Hall2).
    cbn iota in Hall2.
    rewrite <- (Forall2_length _ _ _ Hall2), length_take. lia. }
  pose proof (length_expected_jobs a epochs 2 Hns). lia.
Qed.
End Directories.

(** ** What a run changes, and what it needs *)

Section RunFrame.
Context `{Libraries}.

Lemma leave_file_other f pc q : q ≠ pc.1 → leave_file f pc !! q = f !! q.
Proof.
  intros Hq. unfold leave_file.
  destruct (f !! pc.1) as [[|c]|]; by rewrite ?lookup_insert_ne.
Qed.

Lemma leave_files_other files f q :
  q ∉ files.*1 → foldl leave_file f files !! q = f !! q.
Proof.
  revert f. induction files as [|pc files IH]; intros f Hq; [done|].
  apply not_elem_of_cons in Hq as [Hne Hq]. simpl.
  by rewrite IH, leave_file_other.
Qed.

Lemma leave_file_new_dir f pc p :
  leave_file f pc !! p = Some Dir → f !! p = Some Dir.
Proof.
  unfold leave_file. destruct (f !! pc.1) as [[|c]|] eqn:E; [done| |];
    (destruct (decide (p = pc.1)) as [->|Hne];
     [by rewrite lookup_insert_eq | by rewrite lookup_insert_ne]).
Qed.

Lemma leave_files_new_dir files f p :
  foldl leave_file f files !! p = Some Dir → f !! p = Some Dir.
Proof.
  revert f. induction files as [|pc files IH]; intros f; [done|]. simpl.
  intros Hd. by apply leave_file_new_dir with pc, IH.
Qed.

Lemma write_file_run path c w :
  (value (write_file path c w) = Ok tt ∧ parent_is_dir (fs w) path = true ∧
   fs (after (write_file path c w)) = <[path := File c]> (fs w)) ∨
  (is_ok (value (write_file path c w)) = false ∧ after (write_file path c w) = w).
Proof.
  unfold write_file. rewrite bind_run. simpl.
  destruct (fs w !! path) as [[|c']|]; simpl;
    try (right; split; [done | by destruct w]);
    (destruct (parent_is_dir (fs w) path); simpl;
     [by left | right; by destruct w]).
Qed.

Lemma write_sorting_run s path w :
  (value (sf_write_sorting s path w) = Ok tt ∧ parent_is_dir (fs w) path = true ∧
   ∃ b, fs (after (sf_write_sorting s path w)) = <[path := File b]> (fs w)) ∨
  (is_ok (value (sf_write_sorting s path w)) = false ∧
   after (sf_write_sorting s path w) = w).
Proof.
  unfold sf_write_sorting. rewrite !bind_run. cbn [call lift value after calls].
  destruct (write_sorting_bytes s) as [b|]; cbn [value after calls]; [|by right].
  destruct (write_file_run path b w) as [(Hv & Hp & Hfs)|[Hv Ha]]; [left|right]; eauto.
Qed.

Lemma after_load_run (self : CustomSorting) X w :
  (value (after_load self X w) = Ok tt ∧
   parent_is_dir (fs w) (firings_out self) = true ∧
   ∃ b, fs (after (after_load self X w)) = <[firings_out self := File b]> (fs w)) ∨
  (is_ok (value (after_load self X w)) = false ∧ after (after_load self X w) = w).
Proof.
  unfold after_load, se_NumpyRecordingExtractor,
    st_preprocessing_bandpass_filter, st_preprocessing_whiten,
    ml_ms4alg_mountainsort4_call.
  rewrite call_lift_bind.
  destruct (NumpyRecordingExtractor _ _ _) as [r|]; [|by right]. cbn [value after].
  rewrite call_lift_bind.
  destruct (preprocessing_bandpass_filter _ _ _) as [r1|]; [|by right]. cbn [value after].
  destruct (whiten self).
  - rewrite call_lift_bind.
    destruct (preprocessing_whiten r1) as [r2|]; [|by right]. cbn [value after].
    rewrite call_lift_bind.
    destruct (ml_ms4alg_mountainsort4 _ _ _ _ _ _ _) as [s|]; [|by right].
    cbn [value after]. apply write_sorting_run.
  - rewrite bind_run. cbn [mret M_ret ret value after calls].
    rewrite call_lift_bind.
    destruct (ml_ms4alg_mountainsort4 _ _ _ _ _ _ _) as [s|]; [|by right].
    cbn [value after]. apply write_sorting_run.
Qed.

Lemma readmda_after path w : after (sf_mdaio_readmda path w) = w.
Proof.
  unfold sf_mdaio_readmda, read_file. rewrite !bind_run. simpl.
  destruct (fs w !! path) as [[|c]|]; simpl; try done.
Qed.

Lemma load_run (self : CustomSorting) path w :
  let m := (X ← sf_mdaio_readmda path; after_load self X) in
  (value (m w) = Ok tt ∧ parent_is_dir (fs w) (firings_out self) = true ∧
   ∃ b, fs (after (m w)) = <[firings_out self := File b]> (fs w)) ∨
  (is_ok (value (m w)) = false ∧ after (m w) = w).
Proof.
  cbn zeta. rewrite bind_run, readmda_after.
  destruct (value (sf_mdaio_readmda path w)) as [X|]; [|by right].
  cbn [value after]. apply after_load_run.
Qed.

(** The world the stages that follow the masking start in. *)
Lemma run_body_run (self : CustomSorting) tmpdir w :
  let files :=
    if mask_out_artifacts self then
      (shell_process (mask_script (recording_file_in self) (tmpdir ++ "/raw.mda"))
         (fs w)).2
    else [] in
  let f1 := foldl leave_file (fs w) files in
  (value (run_body self tmpdir w) = Ok tt ∧
   parent_is_dir f1 (firings_out self) = true ∧
   ∃ b, fs (after (run_body self tmpdir w)) = <[firings_out self := File b]> f1) ∨
  (is_ok (value (run_body self tmpdir w)) = false ∧
   fs (after (run_body self tmpdir w)) = f1).
Proof.
  cbn zeta. rewrite run_body_stages. destruct (mask_out_artifacts self).
  - destruct (mask_out_artifacts_run (recording_file_in self) (tmpdir ++ "/raw.mda") w)
      as (_ & Hmv & Hma).
    destruct (decide (_ ≠ 0)) as [|Hz].
    + right. erewrite bind_raise; [|by erewrite bind_raise].
      cbn [value after]. erewrite bind_raise by done. cbn [value after].
      by rewrite Hma.
    + erewrite bind_ok; [|by erewrite bind_ok].
      cbn [value after]. erewrite (bind_ok (_mask_out_artifacts _ _)) by done.
      cbn [value after mret M_ret ret].
      destruct (load_run self (tmpdir ++ "/raw.mda")
                  (after (_mask_out_artifacts (recording_file_in self)
                            (tmpdir ++ "/raw.mda") w)))
        as [(Hv & Hp & b & Hfs)|[Hv Ha]]; cbn zeta in *.
      * left. split; [done|]. split; [by rewrite Hma in Hp|].
        exists b. by rewrite Hfs, Hma.
      * right. split; [done|]. by rewrite Ha, Hma.
  - erewrite bind_ok by done. cbn [value after mret M_ret ret foldl].
    destruct (load_run self (recording_file_in self) w)
      as [(Hv & Hp & b & Hfs)|[Hv Ha]]; cbn zeta in *.
    + left. eauto.
    + right. by rewrite Ha.
Qed.

(** [run] in terms of the body of its [with] statement. *)
Lemma run_with_body (self : CustomSorting) w tmpdir :
  value (tempfile_mkdtemp w) = Ok tmpdir →
  let body := run_body self tmpdir (after (tempfile_mkdtemp w)) in
  value (run self w) = value body ∧
  calls (run self w) = (EvMkdtemp tmpdir :: calls body ++ [EvRmtree tmpdir])%list ∧
  ∀ q, under tmpdir q = false → fs (after (run self w)) !! q = fs (after body) !! q.
Proof.
  intros Ht body.
  destruct (mkdtemp_returns _ _ Ht) as [Hname Hd].
  assert (Hdir : fs (after body) !! tmpdir = Some Dir).
  { by apply keeps_dirs_run_body. }
  destruct (rmtree_removes _ _ Hdir) as [Hrm _].
  split; [|split].
  - unfold run, with_TemporaryDirectory. rewrite bind_run, Ht.
    unfold with_exit. cbn [value after calls]. fold body. by rewrite Hrm.
  - rewrite (calls_run _ _ _ Ht), calls_mkdtemp, calls_rmtree, <- Hname. done.
  - intros q Hq. unfold run, with_TemporaryDirectory. rewrite bind_run, Ht.
    unfold with_exit. cbn [value after calls]. fold body.
    unfold shutil_rmtree. rewrite !bind_run. simpl. rewrite Hdir. simpl.
    apply option_eq. intros x. rewrite map_lookup_filter_Some. cbn [fst].
    split; [by intros [? _] | by intros ?].
Qed.

Lemma under_self p : under p p = true.
Proof. unfold under. by rewrite String.eqb_refl. Qed.

(** X12.  [run] changes nothing outside its temporary directory but the
    output file, and the files the masking process leaves: every other
    path holds after the run what it held before, and so does the output
    path when the run raises. *)
Theorem run_changes_only_the_output
    (self : CustomSorting) (w : world) (tmpdir q : string) :
  value (tempfile_mkdtemp w) = Ok tmpdir →
  under tmpdir q = false →
  (mask_out_artifacts self = true →
   q ∉ (shell_process (mask_script (recording_file_in self) (tmpdir ++ "/raw.mda"))
          (<[tmpdir := Dir]> (fs w))).2.*1) →
  q ≠ firings_out self ∨ is_ok (value (run self w)) = false →
  fs (after (run self w)) !! q = fs w !! q.
Proof.
  intros Ht Hq Hshell Hout.
  destruct (run_with_body self w tmpdir Ht) as (Hv & _ & Hfs).
  destruct (mkdtemp_fs _ _ Ht) as (_ & _ & Hfs1).
  rewrite (Hfs q Hq). rewrite Hv in Hout.
  assert (Hne : q ≠ tmpdir).
  { intros ->. by rewrite under_self in Hq. }
  assert (Hf1 : foldl leave_file (fs (after (tempfile_mkdtemp w)))
                  (if mask_out_artifacts self then
                     (shell_process
                        (mask_script (recording_file_in self) (tmpdir ++ "/raw.mda"))
                        (fs (after (tempfile_mkdtemp w)))).2
                   else []) !! q = fs w !! q).
  { rewrite Hfs1. destruct (mask_out_artifacts self).
    - rewrite leave_files_other by auto. by rewrite lookup_insert_ne.
    - simpl. by rewrite lookup_insert_ne. }
  destruct (run_body_run self tmpdir (after (tempfile_mkdtemp w)))
    as [(Hvb & _ & b & Hb)|[Hvb Hb]]; cbn zeta in *; rewrite Hb.
  - destruct Hout as [Hout|Hout]; [|by rewrite Hvb in Hout].
    by rewrite lookup_insert_ne.
  - done.
Qed.

(** X13.  [run] does not create the directory of its output: when the
    directory above [firings_out] is not there before the run (and is not
    the temporary directory), the run raises, whatever the stages
    return. *)
Theorem run_needs_the_output_directory
    (self : CustomSorting) (w : world) (tmpdir d : string) :
  value (tempfile_mkdtemp w) = Ok tmpdir →
  dirname (firings_out self) = Some d → d ≠ "" → d ≠ tmpdir →
  fs w !! d ≠ Some Dir →
  is_ok (value (run self w)) = false.
Proof.
  intros Ht Hd Hne Htmp Hnd.
  destruct (run_with_body self w tmpdir Ht) as (Hv & _ & _).
  destruct (mkdtemp_fs _ _ Ht) as (_ & _ & Hfs1). rewrite Hv.
  destruct (run_body_run self tmpdir (after (tempfile_mkdtemp w)))
    as [(Hvb & Hp & _)|[Hvb _]]; cbn zeta in *; [|done].
  exfalso. unfold parent_is_dir in Hp. rewrite Hd in Hp.
  destruct d as [|a d']; [done|].
  destruct (foldl leave_file _ _ !! String a d') as [[|c]|] eqn:E; try done.
  apply leave_files_new_dir in E. rewrite Hfs1, lookup_insert_ne in E by done.
  done.
Qed.

(** X14.  The exception of the body of the [with] statement, or its
    return, is the result of [run]: removing the temporary directory never
    replaces it; [tempfile.mkdtemp] is the first call of the run and
    [shutil.rmtree] of the same directory the last. *)
Theorem cleanup_keeps_the_result (self : CustomSorting) (w : world) (tmpdir : string) :
  value (tempfile_mkdtemp w) = Ok tmpdir →
  value (run self w) = value (run_body self tmpdir (after (tempfile_mkdtemp w))) ∧
  head (calls (run self w)) = Some (EvMkdtemp tmpdir) ∧
  last (calls (run self w)) = Some (EvRmtree tmpdir).
Proof.
  intros Ht. destruct (run_with_body self w tmpdir Ht) as (Hv & Hc & _).
  split; [done|]. rewrite Hc. split; [done|].
  by rewrite app_comm_cons, last_snoc.
Qed.

(** X15.  A run without masking that returns has read a regular file at
    [recording_file_in] and has left at [firings_out] the bytes the stages
    make of that file: load, recording, band-pass filter, whitening when
    configured, sorter, writer. *)
Theorem run_writes_the_sorting_of_the_input (self : CustomSorting) (w : world) :
  mask_out_artifacts self = false →
  value (run self w) = Ok tt →
  under (tempfile_name (tmp_requests w)) (firings_out self) = false →
  ∃ c b,
    fs w !! recording_file_in self = Some (File c) ∧
    artifact_bytes self c = Ok b ∧
    fs (after (run self w)) !! firings_out self = Some (File b).
Proof.
  intros Hm Hv Hout.
  destruct (run_ok _ _ Hv Hout) as (tmpdir & c & b & Ht & Hb & Hfs & Hin).
  rewrite Hm in Hin. exists c, b. split; [|done].
  destruct (decide (recording_file_in self = tmpdir)) as [E|Hne].
  - by rewrite E, lookup_insert_eq in Hin.
  - by rewrite lookup_insert_ne in Hin.
Qed.

(** X16.  The recording the sorter is given follows the [whiten] flag:
    with the flag it is what the whitening returned, without it the
    whitening is not called and the sorter is given what the band-pass
    filter returned. *)
Theorem sorter_input_follows_the_whiten_flag
    (self : CustomSorting) (w : world) (r : recording)
    (sign : Z) (radius : Q) (clip : Z) (threshold : Q) (interval workers : Z) :
  EvMountainsort4 r sign radius clip threshold interval workers ∈ calls (run self w) →
  if whiten self then
    ∃ r1, EvWhiten r1 ∈ calls (run self w) ∧ preprocessing_whiten r1 = Ok r
  else
    (∀ r1, EvWhiten r1 ∉ calls (run self w)) ∧
    ∃ r0, EvBandpassFilter r0 (freq_min self) (freq_max self) ∈ calls (run self w) ∧
          preprocessing_bandpass_filter r0 (freq_min self) (freq_max self) = Ok r.
Proof.
  intros Hin.
  destruct (in_run_in_stages _ _ _ Hin eq_refl) as (X & E & HinX).
  assert (Hback : ∀ e, e ∈ stages self X → e ∈ calls (run self w)).
  { intros e. by apply in_stages_in_run. }
  assert (Hforth : ∀ r1, EvWhiten r1 ∈ calls (run self w) → EvWhiten r1 ∈ stages self X).
  { intros r1 Hr1. destruct (in_run_in_stages _ _ _ Hr1 eq_refl) as (X' & E' & HX').
    by rewrite (stages_injective _ _ _ _ E E'). }
  unfold stages, sort_stages in HinX, Hback, Hforth.
  destruct (NumpyRecordingExtractor X 30000 (np_zeros (shape0 X) 2)) as [r0|];
    [|by repeat (apply elem_of_cons in HinX as [HinX|HinX]; [by simplify_eq|]);
         apply elem_of_nil in HinX].
  destruct (preprocessing_bandpass_filter r0 (freq_min self) (freq_max self))
    as [r1|] eqn:Eb;
    [|by repeat (apply elem_of_cons in HinX as [HinX|HinX]; [by simplify_eq|]);
         apply elem_of_nil in HinX].
  destruct (whiten self).
  - destruct (preprocessing_whiten r1) as [r2|] eqn:Ew;
      [|by repeat (apply elem_of_cons in HinX as [HinX|HinX]; [by simplify_eq|]);
           apply elem_of_nil in HinX].
    exists r1. split.
    { apply Hback. do 2 (apply elem_of_cons; right). apply elem_of_cons. by left. }
    repeat (apply elem_of_cons in HinX as [HinX|HinX]; [try by simplify_eq|]).
    + inversion HinX; subst. done.
    + destruct (ml_ms4alg_mountainsort4 _ _ _ _ _ _ _);
        repeat (apply elem_of_cons in HinX as [HinX|HinX]; [by simplify_eq|]);
        by apply elem_of_nil in HinX.
  - split.
    + intros r' Hr'. apply Hforth in Hr'.
      repeat (apply elem_of_cons in Hr' as [Hr'|Hr']; [by simplify_eq|]).
      destruct (ml_ms4alg_mountainsort4 _ _ _ _ _ _ _);
        repeat (apply elem_of_cons in Hr' as [Hr'|Hr']; [by simplify_eq|]);
        by apply elem_of_nil in Hr'.
    + exists r0. split.
      { apply Hback. apply elem_of_cons. right. apply elem_of_cons. by left. }
      repeat (apply elem_of_cons in HinX as [HinX|HinX]; [try by simplify_eq|]).
      * inversion HinX; subst. done.
      * destruct (ml_ms4alg_mountainsort4 _ _ _ _ _ _ _);
          repeat (apply elem_of_cons in HinX as [HinX|HinX]; [by simplify_eq|]);
          by apply elem_of_nil in HinX.
Qed.
End RunFrame.

(** ** A load that finds no file *)

Section MissingFile.
Context `{Libraries}.

Lemma append_ne (s t : string) : t ≠ "" → s ++ t ≠ s.
Proof.
  intros Ht. induction s as [|a s IH]; [done|].
  rewrite append_cons. intros [= E]. by apply IH.
Qed.

Lemma load_without_file (self : CustomSorting) path w :
  (∀ c, fs w !! path ≠ Some (File c)) →
  (X ← sf_mdaio_readmda path; after_load self X) w =
    {| value := Raise (match fs w !! path with
                       | Some _ => IsADirectoryError path
                       | None => FileNotFoundError path
                       end);
       after := w; calls := [EvReadmda path] |}.
Proof.
  intros Hf.
  assert (Hv : value (sf_mdaio_readmda path w)
               = Raise (match fs w !! path with
                        | Some _ => IsADirectoryError path
                        | None => FileNotFoundError path
                        end)).
  { unfold sf_mdaio_readmda, read_file. rewrite !bind_run. simpl.
    destruct (fs w !! path) as [[|c]|] eqn:E; simpl; try done.
    by destruct (Hf c). }
  erewrite bind_raise by done. by rewrite readmda_after, calls_readmda.
Qed.

(** X17.  A masking process that exits with status zero and leaves no
    file at [<tmpdir>/raw.mda] makes the run fail in the load, with
    [FileNotFoundError] for that path: the recording given to the job is
    not read in its place, and no stage is called. *)
Theorem masked_file_must_exist (self : CustomSorting) (w : world) (tmpdir : string) :
  mask_out_artifacts self = true →
  value (tempfile_mkdtemp w) = Ok tmpdir →
  (shell_process (mask_script (recording_file_in self) (tmpdir ++ "/raw.mda"))
     (<[tmpdir := Dir]> (fs w))).1 = 0 →
  tmpdir ++ "/raw.mda"
    ∉ (shell_process (mask_script (recording_file_in self) (tmpdir ++ "/raw.mda"))
         (<[tmpdir := Dir]> (fs w))).2.*1 →
  fs w !! (tmpdir ++ "/raw.mda") = None →
  value (run self w) = Raise (FileNotFoundError (tmpdir ++ "/raw.mda")) ∧
  calls (run self w) =
    [EvMkdtemp tmpdir;
     EvShellScript (mask_script (recording_file_in self) (tmpdir ++ "/raw.mda")) 0;
     EvReadmda (tmpdir ++ "/raw.mda");
     EvRmtree tmpdir].
Proof.
  intros Hm Ht Hz Hno Hfree.
  destruct (run_with_body self w tmpdir Ht) as (Hv & Hc & _).
  destruct (mkdtemp_fs _ _ Ht) as (_ & _ & Hfs1).
  set (w1 := after (tempfile_mkdtemp w)) in *. rewrite <- Hfs1 in Hz, Hno.
  destruct (mask_out_artifacts_run (recording_file_in self) (tmpdir ++ "/raw.mda") w1)
    as (Hmc & Hmv & Hma). cbn zeta in *.
  rewrite decide_False in Hmv by (by intros Hne; apply Hne).
  assert (Hbody : run_body self tmpdir w1 =
            {| value := Raise (FileNotFoundError (tmpdir ++ "/raw.mda"));
               after := after (_mask_out_artifacts (recording_file_in self)
                                 (tmpdir ++ "/raw.mda") w1);
               calls := [EvShellScript
                           (mask_script (recording_file_in self) (tmpdir ++ "/raw.mda")) 0;
                         EvReadmda (tmpdir ++ "/raw.mda")] |}).
  { rewrite run_body_stages, Hm.
    erewrite bind_ok; [|by erewrite bind_ok].
    cbn [value after calls]. erewrite (bind_ok (_mask_out_artifacts _ _)) by done.
    cbn [value after calls mret M_ret ret].
    rewrite load_without_file.
    - rewrite Hma. cbn [fs set_fs value after calls].
      rewrite leave_files_other by done.
      rewrite Hfs1, lookup_insert_ne by (apply not_eq_sym, append_ne; done).
      rewrite Hfree, Hmc, Hz, app_nil_r. done.
    - intros c. rewrite Hma. cbn [fs set_fs].
      rewrite leave_files_other by done.
      rewrite Hfs1, lookup_insert_ne by (apply not_eq_sym, append_ne; done).
      by rewrite Hfree. }
  rewrite Hv, Hc, Hbody. done.
Qed.

End MissingFile.

(** ** What the load reads *)

Section MaskedData.
Context `{Libraries}.

Lemma in_stages_numpy (self : CustomSorting) r X rate geom :
  EvNumpyRecordingExtractor X rate geom
    ∈ match r with Ok X' => stages self X' | Raise _ => [] end →
  r = Ok X.
Proof.
  destruct r as [X'|e]; intros Hin; [|by apply elem_of_nil in Hin].
  by destruct (stages_numpy _ _ _ _ _ Hin) as (-> & _).
Qed.

(** C5, as the source has it.  With the flag set, [run] starts the
    masking script once; its text names the original input path after
    [--timeseries] and the path [raw.mda] inside the run's temporary
    directory after an option spelled [--timeserious_out].  When the script
    exits with status zero the load reads that path: the array given to the
    stages is parsed from the bytes of the file that is there once the
    process is over, and when no file is there the run raises and no stage
    is called.  Nothing in [run] writes the intermediate itself.  With the
    flag unset, no script is started and the array is parsed from the
    bytes of the file at the original input path. *)
Theorem load_reads_what_masking_left
    (self : CustomSorting) (w : world) (tmpdir : string) :
  value (tempfile_mkdtemp w) = Ok tmpdir →
  if mask_out_artifacts self then
    let out := tmpdir ++ "/raw.mda" in
    let script := mask_script (recording_file_in self) out in
    let process := shell_process script (<[tmpdir := Dir]> (fs w)) in
    let left := foldl leave_file (<[tmpdir := Dir]> (fs w)) process.2 in
    omap shell_call (calls (run self w)) = [(script, process.1)] ∧
    script =
      newline ++ "    #!/bin/bash" ++ newline ++
      "    mp-run-process ms3.mask_out_artifacts --timeseries "
      ++ recording_file_in self ++ " --timeserious_out " ++ out ++ newline ++ "    " ∧
    under tmpdir out = true ∧
    omap readmda_path (calls (run self w)) =
      (if decide (process.1 = 0) then [out] else []) ∧
    (∀ X rate geom,
       EvNumpyRecordingExtractor X rate geom ∈ calls (run self w) →
       process.1 = 0 ∧ ∃ c, left !! out = Some (File c) ∧ mdaio_readmda c = Ok X) ∧
    ((∀ c, left !! out ≠ Some (File c)) →
     is_ok (value (run self w)) = false ∧ omap stage_call (calls (run self w)) = [])
  else
    omap shell_call (calls (run self w)) = [] ∧
    omap readmda_path (calls (run self w)) = [recording_file_in self] ∧
    (∀ X rate geom,
       EvNumpyRecordingExtractor X rate geom ∈ calls (run self w) →
       ∃ c, fs w !! recording_file_in self = Some (File c) ∧ mdaio_readmda c = Ok X).
Proof.
  intros Ht.
  destruct (run_with_body self w tmpdir Ht) as (Hv & Hcalls & _).
  destruct (mkdtemp_fs _ _ Ht) as (_ & Hfresh & Hfs1).
  set (w1 := after (tempfile_mkdtemp w)) in *.
  assert (Hsc : ∀ e, shell_call e ≠ None →
             (∃ s r, e = EvShellScript s r) ∨ (∃ p, e = EvReadmda p)).
  { intros [] He; try done. left; eauto. }
  assert (Hrp : ∀ e, readmda_path e ≠ None →
             (∃ s r, e = EvShellScript s r) ∨ (∃ p, e = EvReadmda p)).
  { intros [] He; try done. right; eauto. }
  assert (Htrace : ∀ {B} (f : event → option B),
             (∀ e, f e ≠ None →
                   (∃ s r, e = EvShellScript s r) ∨ (∃ p, e = EvReadmda p)) →
             omap f (calls (run self w)) = omap f (calls (run_body self tmpdir w1))).
  { intros B f Hf. rewrite Hcalls, omap_cons_match, omap_app.
    destruct (f (EvMkdtemp tmpdir)) eqn:E1.
    { destruct (Hf (EvMkdtemp tmpdir)) as [(? & ? & ?)|[? ?]]; [by rewrite E1|done..]. }
    cbn [omap list_omap].
    destruct (f (EvRmtree tmpdir)) eqn:E2.
    { destruct (Hf (EvRmtree tmpdir)) as [(? & ? & ?)|[? ?]]; [by rewrite E2|done..]. }
    by rewrite app_nil_r. }
  assert (Hnumpy : ∀ X rate geom,
             EvNumpyRecordingExtractor X rate geom ∈ calls (run self w) →
             EvNumpyRecordingExtractor X rate geom ∈ calls (run_body self tmpdir w1)).
  { intros X rate geom Hin. rewrite Hcalls in Hin.
    apply elem_of_cons in Hin as [Hin|Hin]; [done|].
    apply elem_of_app in Hin as [Hin|Hin]; [done|].
    by apply list_elem_of_singleton in Hin. }
  assert (Hstage : omap stage_call (calls (run self w))
                   = omap stage_call (calls (run_body self tmpdir w1))).
  { rewrite Hcalls, omap_cons_match, omap_app. cbn [stage_call omap list_omap].
    by rewrite app_nil_r. }
  rewrite !Htrace, !(omap_run_body _ self tmpdir w1), Hfs1 by done.
  rewrite Hv, Hstage. clear Htrace Hv Hstage Hcalls.
  revert Hnumpy. rewrite run_body_stages.
  destruct (mask_out_artifacts self); cbn zeta.
  - destruct (mask_out_artifacts_run (recording_file_in self) (tmpdir ++ "/raw.mda") w1)
      as (Hmc & Hmv & Hma). cbn zeta in *. rewrite Hfs1 in Hmc, Hmv, Hma.
    set (process := shell_process
                      (mask_script (recording_file_in self) (tmpdir ++ "/raw.mda"))
                      (<[tmpdir:=Dir]> (fs w))) in *.
    intros Hnumpy.
    split; [by destruct (decide (process.1 = 0))|].
    split; [done|].
    split; [apply (under_child tmpdir "raw.mda")|].
    split; [by destruct (decide (process.1 = 0))|].
    destruct (decide (process.1 ≠ 0)) as [Hnz|Hz].
    + erewrite bind_raise in *; [|by erewrite bind_raise..].
      cbn [value after calls] in *. erewrite bind_raise in * by done.
      cbn [value after calls] in *. rewrite Hmc in *. split.
      * intros X rate geom Hin. apply Hnumpy in Hin.
        by apply list_elem_of_singleton in Hin.
      * done.
    + assert (Hz0 : process.1 = 0) by (by destruct (decide (process.1 = 0))).
      erewrite bind_ok in *; [|by erewrite bind_ok..].
      cbn [value after calls] in *.
      erewrite (bind_ok (_mask_out_artifacts _ _)) in * by done.
      cbn [value after calls mret M_ret ret] in *.
      rewrite Hmc in *. rewrite app_nil_r in *. rewrite Hma in *.
      set (w2 := set_fs _ w1) in *.
      assert (Hfs2 : fs w2 = foldl leave_file (<[tmpdir:=Dir]> (fs w)) process.2).
      { unfold w2. cbn [fs set_fs]. by rewrite Hfs1. }
      rewrite <- Hfs2. split.
      * intros X rate geom Hin. apply Hnumpy in Hin.
        split; [done|].
        apply elem_of_cons in Hin as [Hin|Hin]; [done|].
        rewrite calls_load in Hin.
        apply elem_of_cons in Hin as [Hin|Hin]; [done|].
        apply in_stages_numpy in Hin.
        destruct (readmda_ok _ _ _ Hin) as (c & Hc & HX & _). eauto.
      * intros Hno. rewrite load_without_file by done.
        cbn [value calls]. done.
  - intros Hnumpy. split; [done|]. split; [done|].
    intros X rate geom Hin. apply Hnumpy in Hin.
    erewrite bind_ok in Hin by done. cbn [value after calls mret M_ret ret] in Hin.
    rewrite app_nil_l, calls_load in Hin.
    apply elem_of_cons in Hin as [Hin|Hin]; [done|].
    apply in_stages_numpy in Hin.
    destruct (readmda_ok _ _ _ Hin) as (c & Hc & HX & _).
    exists c. split; [|done].
    rewrite Hfs1 in Hc.
    destruct (decide (recording_file_in self = tmpdir)) as [E|Hne].
    + by rewrite E, lookup_insert_eq in Hc.
    + by rewrite lookup_insert_ne in Hc.
Qed.
End MaskedData.

(** ** The properties on the small instance *)






(** An instance of [workspace_is_removed]: after the run on the small
    world, the masked intermediate is gone. *)
Lemma workspace_is_removed_witness :
  fs (after (run (demo_processor true) demo_world)) !! "/tmp/tmp0/raw.mda" = None.
Proof.
  apply (workspace_is_removed (demo_processor true) demo_world "/tmp/tmp0");
    vm_compute; reflexivity.
Defined.

(** An instance of [load_reads_what_masking_left], with the flag set: the
    array the stages are given is parsed from the file the masking process
    of the small instance has left in the temporary directory. *)
Lemma load_reads_what_masking_left_witness :
  ∃ c,
    foldl leave_file (<["/tmp/tmp0" := Dir]> (fs demo_world))
      (demo_shell (mask_script "/data/nt1.mda" "/tmp/tmp0/raw.mda")
         (<["/tmp/tmp0" := Dir]> (fs demo_world))).2
      !! "/tmp/tmp0/raw.mda" = Some (File c) ∧
    @mdaio_readmda demo c = Ok [Byte.x01; Byte.x02].
Proof.
  destruct (@load_reads_what_masking_left demo (demo_processor true) demo_world
              "/tmp/tmp0") as (_ & _ & _ & _ & Hload & _).
  - vm_compute. reflexivity.
  - destruct (Hload [Byte.x01; Byte.x02] 30000%Q (repeat Byte.x00 4)) as [_ Hc].
    + vm_compute. do 3 apply list_elem_of_further. apply list_elem_of_here.
    + exact Hc.
Defined.

(** C5 at a masking process that takes its output path from the option
    [--timeseries_out]: the script of the source does not give that
    option, the process exits with status 1 and [run] raises; nothing is
    written in the temporary directory and nothing is loaded. *)
Lemma strict_process_is_given_no_output_path :
  String.index 0 " --timeseries_out "
    (mask_script "/data/nt1.mda" "/tmp/tmp0/raw.mda") = None ∧
  omap shell_call (calls (@run demo_strict_mask (demo_processor true) demo_world))
    = [(mask_script "/data/nt1.mda" "/tmp/tmp0/raw.mda", 1)] ∧
  value (@run demo_strict_mask (demo_processor true) demo_world)
    = Raise (Exception "problem running ms3.mask_out_artifacts") ∧
  omap readmda_path (calls (@run demo_strict_mask (demo_processor true) demo_world))
    = [].
Proof. vm_compute. done. Qed.



(** C3 as stated fails: with both bounds zero the band-pass filter is
    still called, on the loaded recording, and the whitening is given the
    filter's result, not the loaded recording. *)
Lemma zero_bounds_are_still_filtered :
  freq_min (demo_processor false) = 0%Q ∧ freq_max (demo_processor false) = 0%Q ∧
  @EvBandpassFilter demo
    (DemoNumpy [Byte.x01; Byte.x02] 30000 (repeat Byte.x00 4)) 0 0
    ∈ calls (run (demo_processor false) demo_world) ∧
  @EvWhiten demo
    (DemoBandpass (DemoNumpy [Byte.x01; Byte.x02] 30000 (repeat Byte.x00 4)) 0 0)
    ∈ calls (run (demo_processor false) demo_world) ∧
  DemoBandpass (DemoNumpy [Byte.x01; Byte.x02] 30000 (repeat Byte.x00 4)) 0 0
    ≠ DemoNumpy [Byte.x01; Byte.x02] 30000 (repeat Byte.x00 4).
Proof.
  split; [done|]. split; [done|]. split; [|split; [|done]].
  - vm_compute. do 3 apply list_elem_of_further. apply list_elem_of_here.
  - vm_compute. do 4 apply list_elem_of_further. apply list_elem_of_here.
Qed.

(** An instance of [bandpass_filter_is_always_called], with both bounds
    zero. *)
Lemma bandpass_filter_is_always_called_witness :
  @EvBandpassFilter demo
    (DemoNumpy [Byte.x01; Byte.x02] 30000 (repeat Byte.x00 4)) 0 0
    ∈ calls (run (demo_processor false) demo_world).
Proof.
  apply (@bandpass_filter_is_always_called demo (demo_processor false) demo_world
           [Byte.x01; Byte.x02] (repeat Byte.x00 4) 30000
           (DemoNumpy [Byte.x01; Byte.x02] 30000 (repeat Byte.x00 4))).
  - vm_compute. do 2 apply list_elem_of_further. apply list_elem_of_here.
  - reflexivity.
Defined.

(** C6 at the declared default, [noise_overlap_threshold = 0.15]: the
    bytes written are those of the sorter's own result, and the run is the
    one obtained with no threshold at all. *)
Lemma sorter_call_and_no_curation_witness :
  noise_overlap_threshold (demo_processor false) = Some (15 # 100)%Q ∧
  run (with_noise_overlap_threshold None (demo_processor false)) demo_world
    = run (demo_processor false) demo_world ∧
  ∀ s path,
    @EvWriteSorting demo s path ∈ calls (run (demo_processor false) demo_world) →
    path = "/out/firings.mda" ∧
    ∃ r, ml_ms4alg_mountainsort4 r (-1) 50 50 3 10 2 = Ok s.
Proof.
  split; [reflexivity|].
  destruct (@sorter_call_and_no_curation demo (demo_processor false) demo_world)
    as (_ & Hwrite & Hnone).
  split; [apply Hnone|].
  intros s path Hin. destruct (Hwrite s path Hin) as (-> & r & _ & Hr). eauto.
Defined.

(** An instance of [samplerate_is_not_used]: the rate 44100 instead of
    30000. *)
Lemma samplerate_is_not_used_witness :
  run (with_samplerate 44100 (demo_processor true)) demo_world
    = run (demo_processor true) demo_world ∧
  key_of (with_samplerate 44100 (demo_processor true)) ≠ key_of (demo_processor true).
Proof.
  destruct (@samplerate_is_not_used demo (demo_processor true) 44100 demo_world)
    as (Hrun & _ & Hkey).
  split; [exact Hrun|]. apply Hkey. vm_compute. discriminate.
Defined.



(** An instance of [changed_configuration_misses_the_cache]: the same job
    with [detect_sign] changed from -1 to 1. *)
Lemma changed_configuration_misses_the_cache_witness :
  key_of (demo_processor true) ≠
    key_of (demo_positive_sign) ∧
  ∀ artifact,
    value (execute_job
             {| processor := demo_positive_sign;
                _force_run := false |}
             (after (execute_job (demo_job true false) demo_world)))
      ≠ Ok (CacheHit artifact).
Proof.
  destruct (@changed_configuration_misses_the_cache demo
              (demo_job true false)
              {| processor := demo_positive_sign;
                 _force_run := false |}
              demo_world) as (_ & Hk & _ & Hv & _).
  - vm_compute. discriminate.
  - reflexivity.
  - split; [exact Hk | exact Hv].
Defined.

(** An instance of [pool_bound_and_fifo]: two submissions to the default
    pool of one worker. *)
Lemma pool_bound_and_fifo_witness :
  (length (Scheduler.running demo_pool_state) ≤ 1)%nat ∧
  Scheduler.submissions demo_pool_state
    = (Scheduler.started demo_pool_state ++ Scheduler.pending demo_pool_state)%list.
Proof.
  destruct (pool_bound_and_fifo demo_args demo_labels demo_pool_state)
    as (_ & Hfifo & Hone).
  - vm_compute. reflexivity.
  - split; [apply Hone; reflexivity | exact Hfifo].
Defined.



(** ** The further properties on the small instance *)

(** An instance of [loaded_ntrodes_are_mda_files]: the first epoch of the
    small day. *)
Lemma loaded_ntrodes_are_mda_files_witness :
  epoch_path demo_day_e1 = "/day/e1.mda" ∧ epoch_name demo_day_e1 = "e1" ∧
  ∀ n, n ∈ ntrodes demo_day_e1 →
       ntrode_path n = "/day/e1.mda" ++ "/" ++ ntrode_name n ++ ".mda" ∧
       is_Some (fs demo_day_world !! ntrode_path n) ∧
       dirname (ntrode_path n) = Some "/day/e1.mda" ∧
       @createSnapshot demo_mt (ntrode_path n) (fs demo_day_world)
         = Ok (recording_file n).
Proof.
  apply (@loaded_ntrodes_are_mda_files demo demo_mt
           "/day/e1.mda" "e1" false demo_day_world demo_day_e1).
  vm_compute. reflexivity.
Defined.

(** An instance of [loaded_ntrodes_are_sorted_and_distinct]: the directory
    holds [nt2.mda] before [nt1.mda]. *)
Lemma loaded_ntrodes_are_sorted_and_distinct_witness :
  StronglySorted String.le ((λ n, ntrode_name n ++ ".mda") <$> ntrodes demo_day_e1) ∧
  NoDup (ntrode_name <$> ntrodes demo_day_e1).
Proof.
  apply (@loaded_ntrodes_are_sorted_and_distinct demo demo_mt
           "/day/e1.mda" "e1" false demo_day_world demo_day_e1).
  vm_compute. reflexivity.
Defined.

(** An instance of [test_flag_keeps_the_first_two_ntrodes]: three ntrodes,
    of which the third is left out. *)
Lemma test_flag_keeps_the_first_two_ntrodes_witness :
  value (@load_epoch demo demo_mt "/day/e1.mda" "e1" true demo_day_world)
    = Ok (first_two_ntrodes demo_day_e1) ∧
  (length (ntrodes (first_two_ntrodes demo_day_e1)) ≤ 2)%nat.
Proof.
  apply (@test_flag_keeps_the_first_two_ntrodes demo demo_mt
           "/day/e1.mda" "e1" demo_day_world demo_day_e1).
  vm_compute. reflexivity.
Defined.

(** An instance of [every_mda_file_is_loaded]. *)
Lemma every_mda_file_is_loaded_witness :
  "/day/e1.mda/nt2.mda" ∈ ntrode_path <$> ntrodes demo_day_e1.
Proof.
  apply (@every_mda_file_is_loaded demo demo_mt
           "/day/e1.mda" "e1" demo_day_world demo_day_e1 "/day/e1.mda/nt2.mda").
  - vm_compute. reflexivity.
  - exists (File [Byte.x02]). vm_compute. reflexivity.
  - vm_compute. reflexivity.
  - vm_compute. reflexivity.
Defined.


(** An instance of [epoch_that_is_a_file_stops_main]. *)
Lemma epoch_that_is_a_file_stops_main_witness :
  @main_script demo demo_mt demo_day_args demo_flat_day_world =
    {| value := Raise (NotADirectoryError "/day/e1.mda");
       after := demo_flat_day_world; calls := [] |}.
Proof.
  apply (@epoch_that_is_a_file_stops_main demo demo_mt demo_day_args
           demo_flat_day_world "e1.mda" [] [Byte.x01]).
  - vm_compute. reflexivity.
  - vm_compute. reflexivity.
Defined.

(** An instance of [main_hands_over_one_job_per_file]: the small day. *)
Lemma main_hands_over_one_job_per_file_witness :
  ∃ epochs,
    value (@load_epochs demo demo_mt demo_day_args demo_day_world) = Ok epochs ∧
    omap submitted (calls (@main_script demo demo_mt demo_day_args demo_day_world))
      = expected_jobs demo_day_args epochs ∧
    ∀ j, j ∈ expected_jobs demo_day_args epochs →
         ∃ E N,
           is_Some (fs demo_day_world
                      !! (("/day" ++ "/" ++ E ++ ".mda") ++ "/" ++ N ++ ".mda")) ∧
           @createSnapshot demo_mt (("/day" ++ "/" ++ E ++ ".mda") ++ "/" ++ N ++ ".mda")
             (fs demo_day_world)
             = Ok (recording_file_in (processor j)) ∧
           firings_out (processor j) = "/out" ++ "/" ++ E ++ "/" ++ N ++ "/firings.mda" ∧
           _force_run j = false.
Proof.
  apply (@main_hands_over_one_job_per_file demo demo_mt demo_day_args demo_day_world).
  vm_compute. reflexivity.
Defined.



(** An instance of [test_run_hands_over_at_most_four_jobs]. *)
Lemma test_run_hands_over_at_most_four_jobs_witness :
  (length (omap submitted
             (calls (@main_script demo demo_mt (with_test true demo_day_args)
                       demo_day_world))) ≤ 4)%nat.
Proof.
  apply (@test_run_hands_over_at_most_four_jobs demo demo_mt
           (with_test true demo_day_args) demo_day_world).
  - reflexivity.
  - vm_compute. reflexivity.
Defined.

(** An instance of [run_changes_only_the_output]: the recording is what it
    was. *)
Lemma run_changes_only_the_output_witness :
  fs (after (@run demo (demo_processor true) demo_world)) !! "/data/nt1.mda"
    = fs demo_world !! "/data/nt1.mda".
Proof.
  apply (@run_changes_only_the_output demo (demo_processor true) demo_world
           "/tmp/tmp0" "/data/nt1.mda").
  - vm_compute. reflexivity.
  - vm_compute. reflexivity.
  - intros _. apply (bool_decide_unpack _). vm_compute. exact I.
  - left. discriminate.
Defined.

(** An instance of [run_needs_the_output_directory]: there is no
    [/results]. *)
Lemma run_needs_the_output_directory_witness :
  is_ok (value (@run demo demo_deep_output_processor demo_world)) = false.
Proof.
  apply (@run_needs_the_output_directory demo demo_deep_output_processor demo_world
           "/tmp/tmp0" "/results").
  - vm_compute. reflexivity.
  - vm_compute. reflexivity.
  - discriminate.
  - discriminate.
  - vm_compute. discriminate.
Defined.

(** An instance of [cleanup_keeps_the_result]. *)
Lemma cleanup_keeps_the_result_witness :
  value (@run demo (demo_processor false) demo_world)
    = value (@run_body demo (demo_processor false) "/tmp/tmp0"
               (after (@tempfile_mkdtemp demo demo_world))) ∧
  head (calls (@run demo (demo_processor false) demo_world))
    = Some (@EvMkdtemp demo "/tmp/tmp0") ∧
  last (calls (@run demo (demo_processor false) demo_world))
    = Some (@EvRmtree demo "/tmp/tmp0").
Proof.
  apply (@cleanup_keeps_the_result demo (demo_processor false) demo_world "/tmp/tmp0").
  vm_compute. reflexivity.
Defined.

(** An instance of [run_writes_the_sorting_of_the_input]. *)
Lemma run_writes_the_sorting_of_the_input_witness :
  ∃ c b,
    fs demo_world !! "/data/nt1.mda" = Some (File c) ∧
    @artifact_bytes demo (demo_processor false) c = Ok b ∧
    fs (after (@run demo (demo_processor false) demo_world)) !! "/out/firings.mda"
      = Some (File b).
Proof.
  apply (@run_writes_the_sorting_of_the_input demo (demo_processor false) demo_world).
  - reflexivity.
  - vm_compute. reflexivity.
  - vm_compute. reflexivity.
Defined.

(** An instance of [sorter_input_follows_the_whiten_flag], without
    whitening. *)
Lemma sorter_input_follows_the_whiten_flag_witness :
  (∀ r1, @EvWhiten demo r1 ∉ calls (@run demo demo_unwhitened_processor demo_world)) ∧
  ∃ r0,
    @EvBandpassFilter demo r0 300 6000
      ∈ calls (@run demo demo_unwhitened_processor demo_world) ∧
    @preprocessing_bandpass_filter demo r0 300 6000
      = Ok (DemoBandpass (DemoNumpy [Byte.x01; Byte.x02] 30000 (repeat Byte.x00 4))
              300 6000).
Proof.
  apply (@sorter_input_follows_the_whiten_flag demo demo_unwhitened_processor demo_world
           (DemoBandpass (DemoNumpy [Byte.x01; Byte.x02] 30000 (repeat Byte.x00 4))
              300 6000)
           (-1) 50 50 3 10 2).
  vm_compute. do 4 apply list_elem_of_further. apply list_elem_of_here.
Defined.

(** An instance of [masked_file_must_exist]: a masking process that
    writes nothing. *)
Lemma masked_file_must_exist_witness :
  value (@run demo_idle_mask (demo_processor true) demo_world)
    = Raise (FileNotFoundError "/tmp/tmp0/raw.mda") ∧
  calls (@run demo_idle_mask (demo_processor true) demo_world) =
    [@EvMkdtemp demo_idle_mask "/tmp/tmp0";
     @EvShellScript demo_idle_mask (mask_script "/data/nt1.mda" "/tmp/tmp0/raw.mda") 0;
     @EvReadmda demo_idle_mask "/tmp/tmp0/raw.mda";
     @EvRmtree demo_idle_mask "/tmp/tmp0"].
Proof.
  apply (@masked_file_must_exist demo_idle_mask (demo_processor true) demo_world
           "/tmp/tmp0").
  - reflexivity.
  - vm_compute. reflexivity.
  - reflexivity.
  - apply not_elem_of_nil.
  - vm_compute. reflexivity.
Defined.

